(** * ectl: ESXi control utility -- snapshot tree walk, snapshot resolution,
      task protocol and connection settings

    A shallow embedding of [ectl.py].  Python objects become records, the
    [SnapWorker] class hierarchy becomes a type class with one instance per
    subclass, and every effect the program has on the outside world (a
    visitor being applied to a snapshot, a task submitted to the host, a wait
    on a task, a connection attempt, a printed line) is recorded, in order,
    in a trace.  Exceptions are explicit results. *)

From Stdlib Require Import String Ascii ZArith List Bool Lia.
From Stdlib Require DecimalString.
Import ListNotations.
Set Warnings "-register-all".
Open Scope string_scope.

(** ** Exceptions, results and the trace monad *)

(** The exceptions the modelled code can raise.  [EctlException] is the
    program's own class; the others are the host's fault, as pyVim raises
    it, and Python built-ins; they escape the program's
    [except EctlException] handler. *)
Inductive exn :=
| EctlException (error : string)
| AttributeError (attr : string)   (* attribute [attr] looked up on [None] *)
| TypeError
| IndexError
| MethodFault (msg : string).      (* the fault of a failed host task *)

Inductive result (A : Type) :=
| Ok (a : A)
| Raise (e : exn).
Arguments Ok {A} a.
Arguments Raise {A} e.

(** Opaque managed-object reference of the host (a [vim.vm.Snapshot]). *)
Inductive Ref := ManagedObject (moId : string).

Definition Ref_eqb (a b : Ref) : bool :=
  match a, b with
  | ManagedObject x, ManagedObject y => String.eqb x y
  end.

(** [vim.vm.SnapshotTree]: one node of a machine's snapshot forest. *)
Module SnapshotTree.
Inductive t := Build {
  id : Z;
  name : string;
  createTime : Z;
  snapshot : Ref;
  childSnapshotList : list t
}.
End SnapshotTree.

(** [vim.vm.SnapshotInfo]: what [vm.snapshot] holds when it is not [None]. *)
Module SnapshotInfo.
Record t := Build {
  currentSnapshot : option Ref;
  rootSnapshotList : list SnapshotTree.t
}.
End SnapshotInfo.

(** The remote methods that change the host. *)
Inductive RemoteCall :=
| CreateSnapshot_call (name : option string) (description : string)
    (memory quiesce : bool)
| RemoveSnapshot_call (snap : Ref) (removeChildren : bool)
| RevertToSnapshot_call (snap : Ref)
| PowerOn_call
| PowerOff_call
| Reset_call.

(** What a wait on a host task ends with: the task's state and, when it
    failed, the host's reason.  The state is ["success"] or ["error"] for a
    task that came to an end; any other state stands for a wait that ended
    because the task object was gone. *)
Module TaskInfo.
Record t := Build {
  state : string;
  error : option string
}.
End TaskInfo.

(** A task object as returned by a remote method. *)
Module Task.
Record t := Build {
  call : RemoteCall;
  info : TaskInfo.t
}.
End Task.

(** JSON values as [json.load] returns them; [JNull] is Python's [None]. *)
Inductive json :=
| JNull
| JBool (b : bool)
| JNumber (z : Z)
| JString (s : string)
| JArray (l : list json)
| JObject (d : list (string * json)).

Inductive event :=
| Apply (snap : SnapshotTree.t)        (* worker.apply(snap) is entered *)
| Submit (c : RemoteCall)              (* a remote method is called *)
| WaitFor (c : RemoteCall)             (* WaitForTask on that call's task *)
| Connect (host user pwd : json)       (* SmartConnectNoSSL is called *)
| Stdout (line : string).             (* print(line) *)

(** A computation yields a result and the trace of its effects; a raise
    keeps the trace of what happened before it. *)
Definition M (A : Type) : Type := (result A * list event)%type.

Definition ret {A} (a : A) : M A := (Ok a, []).

Definition raise {A} (e : exn) : M A := (Raise e, []).

Definition emit (e : event) : M unit := (Ok tt, [e]).

Definition bind {A B} (m : M A) (f : A -> M B) : M B :=
  match m with
  | (Ok a, t) => let (r, t') := f a in (r, (t ++ t')%list)
  | (Raise e, t) => (Raise e, t)
  end.

Notation "x <- c ;; k" := (bind c (fun x => k))
  (at level 61, c at next level, right associativity).
Notation "c ;;; k" := (bind c (fun _ => k))
  (at level 61, right associativity).

(** A Python [for x in l: w = body(x, w)] loop over a list. *)
Definition for_each {A W} (body : A -> W -> M W) : list A -> W -> M W :=
  fix loop l w :=
    match l with
    | [] => ret w
    | a :: l => w <- body a w ;; loop l w
    end.

Definition outcome_of {A} (m : M A) : result A := fst m.
Definition trace_of {A} (m : M A) : list event := snd m.

(** The snapshots a trace applied a worker to, in order. *)
Fixpoint applied (t : list event) : list SnapshotTree.t :=
  match t with
  | [] => []
  | Apply s :: t => s :: applied t
  | _ :: t => applied t
  end.

(** The remote calls a trace submitted, in order. *)
Fixpoint submitted (t : list event) : list RemoteCall :=
  match t with
  | [] => []
  | Submit c :: t => c :: submitted t
  | _ :: t => submitted t
  end.

(** The remote calls whose task a trace waited for, in order. *)
Fixpoint waited (t : list event) : list RemoteCall :=
  match t with
  | [] => []
  | WaitFor c :: t => c :: waited t
  | _ :: t => waited t
  end.

(** ** The machine, the host and the command line *)

(** [vim.VirtualMachine].  [tasks] is the host's side of the machine: the
    terminal report it will give for the task of each remote call. *)
Module VirtualMachine.
Record t := Build {
  name : string;
  summary_config_name : string;
  snapshot : option SnapshotInfo.t;
  tasks : RemoteCall -> TaskInfo.t
}.
End VirtualMachine.

(** The service instance: the machines of the container view. *)
Module ServiceInstance.
Record t := Build {
  view : list VirtualMachine.t
}.
End ServiceInstance.

(** The [argparse] namespace. *)
Module Args.
Record t := Build {
  config : option string;
  host : option string;
  user : option string;
  password : option string;
  vm_name : string;
  snap : option string;
  by_id : bool;
  start : bool
}.
End Args.

(** A file as [json.load(open(path))] sees it. *)
Inductive file :=
| Unparsable (e : string)    (* IOError, TypeError or ValueError [e] *)
| Parsed (j : json).

Inductive connect_outcome :=
| Connected (si : ServiceInstance.t)
| InvalidLogin (e : string)
| ConnectFailure (e : string).

(** What lies outside the program: the home directory, the file system and
    the host's answer to a connection attempt. *)
Module World.
Record t := Build {
  home : string;
  files : string -> option file;
  SmartConnectNoSSL : json -> json -> json -> connect_outcome
}.
End World.

(** ** General functions *)

Definition read_config_file (w : World.t) (args : Args.t) : M json :=
  let config_path :=
    match Args.config args with
    | None => World.home w ++ "/.local/config/ectl.json"
    | Some p => p
    end in
  match World.files w config_path with
  | None => ret JNull
  | Some (Parsed j) => ret j
  | Some (Unparsable e) =>
      raise (EctlException ("Error parsing " ++ config_path ++ " - '" ++ e ++ "'"))
  end.

(** [raise task.info.error]; raising [None] is a [TypeError]. *)
Definition raise_info_error {A} (info : TaskInfo.t) : M A :=
  match TaskInfo.error info with
  | Some msg => raise (MethodFault msg)
  | None => raise TypeError
  end.

(** [WaitForTask] belongs to pyVim and is called with its defaults, so with
    [raiseOnError=True]: once the wait is over it raises the task's error
    when the state is ["error"], and returns the state otherwise. *)
Definition WaitForTask (task : Task.t) : M string :=
  emit (WaitFor (Task.call task)) ;;;
  if TaskInfo.state (Task.info task) =? "error"
  then raise_info_error (Task.info task)
  else ret (TaskInfo.state (Task.info task)).

Definition exec_task {A} (task : A -> M Task.t) (error_message : string)
    (task_args : A) : M unit :=
  t <- task task_args ;;
  st <- WaitForTask t ;;
  if negb (st =? "success") then raise (EctlException error_message)
  else ret tt.

Fixpoint dict_get (d : list (string * json)) (name : string) : option json :=
  match d with
  | [] => None
  | (k, v) :: d => if k =? name then Some v else dict_get d name
  end.

Definition _determine_setting (arg : option string) (config : json)
    (name : string) : M json :=
  match arg with
  | Some a => ret (JString a)
  | None =>
      match config with
      | JNull => ret JNull
      | JObject d =>
          match dict_get d name with
          | Some v => ret v
          | None => ret JNull          (* KeyError *)
          end
      | _ => raise TypeError           (* config[name] on a non-dict *)
      end
  end.

Definition is_None (v : json) : bool :=
  match v with
  | JNull => true
  | _ => false
  end.

Definition esxi_connect (w : World.t) (config : json) (args : Args.t)
    : M ServiceInstance.t :=
  host <- _determine_setting (Args.host args) config "host" ;;
  user <- _determine_setting (Args.user args) config "user" ;;
  pwd <- _determine_setting (Args.password args) config "password" ;;
  if is_None host then raise (EctlException "Missing host setting")
  else if is_None user then raise (EctlException "Missing user setting")
  else if is_None pwd then raise (EctlException "Missing password setting")
  else
    emit (Connect host user pwd) ;;;
    match World.SmartConnectNoSSL w host user pwd with
    | Connected si => ret si
    | InvalidLogin e =>
        raise (EctlException ("Invalid login details - '" ++ e ++ "'"))
    | ConnectFailure e =>
        raise (EctlException ("Error connecting to ESXi server - '" ++ e ++ "'"))
    end.

Definition _MAX_DEPTH : nat := 10.

(** ** VM level functions *)

Module Summary.
Record t := Build {
  config_name : string;
  runtime_powerState : string;
  guest_ipAddress : option string
}.
End Summary.

(** An inventory entity: a group, which has [childEntity], or a machine. *)
Inductive entity :=
| Folder (childEntity : list entity)
| Machine (summary : Summary.t).

(** ["{:<n}".format(s)] *)
Definition ljust (n : nat) (s : string) : string :=
  s ++ string_of_list_ascii (repeat " "%char (n - String.length s)).

Definition _VM_PRINT_FMT (a b c : string) : string :=
  ljust 60 a ++ ljust 8 b ++ ljust 18 c.

Fixpoint print_vm_info (vm : entity) (depth : nat) : M unit :=
  match vm with
  | Folder vm_list =>
      if (_MAX_DEPTH <? depth)%nat then ret tt
      else for_each (fun child _ => print_vm_info child (depth + 1)) vm_list tt
  | Machine summary =>
      let power := Summary.runtime_powerState summary in
      let '(power, ip) :=
        if (power =? "poweredOn") || (power =? "poweredOff") then
          let power := substring 7 (String.length power - 7) power in
          (power, if power =? "On" then Summary.guest_ipAddress summary else None)
        else ("n/a", None) in
      let ip := match ip with None => "n/a" | Some ip => ip end in
      emit (Stdout (_VM_PRINT_FMT (Summary.config_name summary) power ip))
  end.

Fixpoint find_vm_loop (view : list VirtualMachine.t) (vm_name : string)
    : option VirtualMachine.t :=
  match view with
  | [] => None
  | c :: view =>
      if VirtualMachine.name c =? vm_name then Some c
      else find_vm_loop view vm_name
  end.

Definition find_vm (si : ServiceInstance.t) (vm_name : string)
    (raise_on_missing : bool) : M (option VirtualMachine.t) :=
  match find_vm_loop (ServiceInstance.view si) vm_name with
  | Some c => ret (Some c)
  | None =>
      if raise_on_missing
      then raise (EctlException ("Unable to find VM name " ++ vm_name))
      else ret None
  end.

(** Calling a remote method of a machine (or of one of its snapshots):
    the call is submitted and a task object comes back. *)
Definition invoke (vm : VirtualMachine.t) (c : RemoteCall) : M Task.t :=
  emit (Submit c) ;;;
  ret (Task.Build c (VirtualMachine.tasks vm c)).

Definition CreateSnapshot (vm : VirtualMachine.t)
    (a : option string * string * bool * bool) : M Task.t :=
  let '(name, description, memory, quiesce) := a in
  invoke vm (CreateSnapshot_call name description memory quiesce).

Definition RemoveSnapshot_Task (vm : VirtualMachine.t) (snap : Ref)
    (removeChildren : bool) : M Task.t :=
  invoke vm (RemoveSnapshot_call snap removeChildren).

Definition RevertToSnapshot_Task (vm : VirtualMachine.t) (snap : Ref)
    (_ : unit) : M Task.t :=
  invoke vm (RevertToSnapshot_call snap).

Definition PowerOn (vm : VirtualMachine.t) : M Task.t := invoke vm PowerOn_call.
Definition PowerOff (vm : VirtualMachine.t) : M Task.t := invoke vm PowerOff_call.
Definition Reset (vm : VirtualMachine.t) : M Task.t := invoke vm Reset_call.

(** [vm.attr] where [vm] may be [None]. *)
Definition the_vm (vm : option VirtualMachine.t) (attr : string)
    : M VirtualMachine.t :=
  match vm with
  | Some vm => ret vm
  | None => raise (AttributeError attr)
  end.

Definition start_vm (si : ServiceInstance.t) (args : Args.t) : M unit :=
  vm <- find_vm si (Args.vm_name args) true ;;
  vm <- the_vm vm "PowerOn" ;;
  PowerOn vm ;;;
  ret tt.

Definition stop_vm (si : ServiceInstance.t) (args : Args.t) : M unit :=
  vm <- find_vm si (Args.vm_name args) true ;;
  vm <- the_vm vm "PowerOff" ;;
  PowerOff vm ;;;
  ret tt.

Definition reset_vm (si : ServiceInstance.t) (args : Args.t) : M unit :=
  vm <- find_vm si (Args.vm_name args) true ;;
  vm <- the_vm vm "Reset" ;;
  Reset vm ;;;
  ret tt.

(** ** Snapshot functions *)

(** The [SnapWorker] interface: [apply] updates the worker object, and
    [cont_iteration] reads its flag. *)
Class SnapWorker (W : Type) := {
  apply : SnapshotTree.t -> W -> W;
  cont_iteration : W -> bool
}.

(** The base class itself: the flag starts set and [apply] does nothing. *)
Record BaseWorker := { bw_cont_iteration : bool }.

Definition BaseWorker_init : BaseWorker := {| bw_cont_iteration := true |}.

#[export] Instance SnapWorker_base : SnapWorker BaseWorker := {
  apply := fun _ self => self;
  cont_iteration := bw_cont_iteration
}.

Section Walk.
Context {W : Type} `{SnapWorker W}.

Definition call_apply (snap : SnapshotTree.t) (worker : W) : M W :=
  emit (Apply snap) ;;;
  ret (apply snap worker).

Fixpoint _snap_iterator (snap : SnapshotTree.t) (worker : W) : M W :=
  worker <- call_apply snap worker ;;
  if negb (cont_iteration worker) then ret worker
  else for_each _snap_iterator (SnapshotTree.childSnapshotList snap) worker.

Definition snap_iterator (vm : VirtualMachine.t) (worker : W) : M W :=
  match VirtualMachine.snapshot vm with
  | None => ret worker
  | Some snapshot =>
      for_each _snap_iterator (SnapshotInfo.rootSnapshotList snapshot) worker
  end.
End Walk.

Definition BY_NAME : Z := 1.
Definition BY_ID : Z := 2.

(** [self.identifier]: the string as given (by name), or an integer (by
    id). *)
Inductive identifier_value :=
| StrIdentifier (s : option string)
| IntIdentifier (z : Z).

Record SnapFinder := {
  sf_cont_iteration : bool;
  sf_identifier_type : Z;
  sf_identifier : identifier_value;
  sf_snaps : list SnapshotTree.t
}.

(** [snap.name == self.identifier] and [snap.id == self.identifier]: values
    of different types are never equal. *)
Definition name_eq (name : string) (i : identifier_value) : bool :=
  match i with
  | StrIdentifier (Some s) => name =? s
  | _ => false
  end.

Definition id_eq (id : Z) (i : identifier_value) : bool :=
  match i with
  | IntIdentifier z => (id =? z)%Z
  | _ => false
  end.

Definition SnapFinder_apply (snap : SnapshotTree.t) (self : SnapFinder)
    : SnapFinder :=
  if (sf_identifier_type self =? BY_NAME)%Z then
    if name_eq (SnapshotTree.name snap) (sf_identifier self) then
      {| sf_cont_iteration := sf_cont_iteration self;
         sf_identifier_type := sf_identifier_type self;
         sf_identifier := sf_identifier self;
         sf_snaps := (sf_snaps self ++ [snap])%list |}
    else self
  else
    if id_eq (SnapshotTree.id snap) (sf_identifier self) then
      {| sf_cont_iteration := false;
         sf_identifier_type := sf_identifier_type self;
         sf_identifier := sf_identifier self;
         sf_snaps := (sf_snaps self ++ [snap])%list |}
    else self.

#[export] Instance SnapWorker_SnapFinder : SnapWorker SnapFinder := {
  apply := SnapFinder_apply;
  cont_iteration := sf_cont_iteration
}.

Record CurrSnapFinder := {
  cf_cont_iteration : bool;
  cf_snap_ref : option Ref;
  cf_curr_snap : option SnapshotTree.t
}.

Definition CurrSnapFinder_init (snap_ref : option Ref) : CurrSnapFinder :=
  {| cf_cont_iteration := true; cf_snap_ref := snap_ref; cf_curr_snap := None |}.

Definition ref_eq (r : Ref) (snap_ref : option Ref) : bool :=
  match snap_ref with
  | Some r' => Ref_eqb r r'
  | None => false
  end.

Definition CurrSnapFinder_apply (snap : SnapshotTree.t) (self : CurrSnapFinder)
    : CurrSnapFinder :=
  if ref_eq (SnapshotTree.snapshot snap) (cf_snap_ref self) then
    {| cf_cont_iteration := false;
       cf_snap_ref := cf_snap_ref self;
       cf_curr_snap := Some snap |}
  else self.

#[export] Instance SnapWorker_CurrSnapFinder : SnapWorker CurrSnapFinder := {
  apply := CurrSnapFinder_apply;
  cont_iteration := cf_cont_iteration
}.

Definition get_curr_snap (vm : VirtualMachine.t) : M (option SnapshotTree.t) :=
  snapshot <- match VirtualMachine.snapshot vm with
              | Some snapshot => ret snapshot
              | None => raise (AttributeError "currentSnapshot")
              end ;;
  let snap_finder := CurrSnapFinder_init (SnapshotInfo.currentSnapshot snapshot) in
  snap_finder <- snap_iterator vm snap_finder ;;
  ret (cf_curr_snap snap_finder).

(** ["{}".format(x)] for a string or [None]. *)
Definition format_str (x : option string) : string :=
  match x with
  | Some s => s
  | None => "None"
  end.

Definition newline : string := String (ascii_of_nat 10) EmptyString.
Definition tab : string := String (ascii_of_nat 9) EmptyString.

Inductive exit_status :=
| Exit (code : Z)
| Traceback (e : exn).        (* an exception nobody caught *)

Section Commands.
(** Python's built-in [int] on a string: the integer, or [None] where it
    raises [ValueError]. *)
Variable int : string -> option Z.

Definition SnapFinder_init (identifier : option string) (identifier_type : Z)
    : M SnapFinder :=
  if (identifier_type =? BY_NAME)%Z then
    ret {| sf_cont_iteration := true;
           sf_identifier_type := identifier_type;
           sf_identifier := StrIdentifier identifier;
           sf_snaps := [] |}
  else
    match identifier with
    | None => raise TypeError              (* int(None) *)
    | Some s =>
        match int s with
        | Some z =>
            ret {| sf_cont_iteration := true;
                   sf_identifier_type := identifier_type;
                   sf_identifier := IntIdentifier z;
                   sf_snaps := [] |}
        | None => raise (EctlException ("Illegal snap id - '" ++ s ++ "'"))
        end
    end.

Definition find_snap (vm : VirtualMachine.t) (args : Args.t)
    : M SnapshotTree.t :=
  snap_finder <- (if Args.by_id args
                  then SnapFinder_init (Args.snap args) BY_ID
                  else SnapFinder_init (Args.snap args) BY_NAME) ;;
  snap_finder <- snap_iterator vm snap_finder ;;
  if (List.length (sf_snaps snap_finder) =? 0)%nat then
    raise (EctlException ("VM '" ++ VirtualMachine.summary_config_name vm
                          ++ "' has no such snapshot - '"
                          ++ format_str (Args.snap args) ++ "'"))
  else if (1 <? List.length (sf_snaps snap_finder))%nat then
    raise (EctlException ("VM '" ++ VirtualMachine.summary_config_name vm
                          ++ "' has multiple snapshots named '"
                          ++ format_str (Args.snap args)
                          ++ "', use snapshot ID"))
  else
    match sf_snaps snap_finder with
    | snap :: _ => ret snap
    | [] => raise IndexError
    end.

Definition snap_create (si : ServiceInstance.t) (args : Args.t) : M unit :=
  vm <- find_vm si (Args.vm_name args) true ;;
  vm <- the_vm vm "CreateSnapshot" ;;
  exec_task (CreateSnapshot vm) "Error creating snapshot"
            (Args.snap args, "", false, false).

Definition snap_remove (si : ServiceInstance.t) (args : Args.t) : M unit :=
  vm <- find_vm si (Args.vm_name args) true ;;
  vm <- the_vm vm "snapshot" ;;
  snap <- find_snap vm args ;;
  exec_task (RemoveSnapshot_Task vm (SnapshotTree.snapshot snap))
            "Error removing snapshots" true.

(** [vm.snapshot.currentSnapshot if args.snap is None else
    find_snap(vm, args).snapshot] *)
Definition revert_target (vm : VirtualMachine.t) (args : Args.t)
    : M (option Ref) :=
  match Args.snap args with
  | None =>
      match VirtualMachine.snapshot vm with
      | Some snapshot => ret (SnapshotInfo.currentSnapshot snapshot)
      | None => raise (AttributeError "currentSnapshot")
      end
  | Some _ =>
      snap <- find_snap vm args ;;
      ret (Some (SnapshotTree.snapshot snap))
  end.

Definition snap_revert (si : ServiceInstance.t) (args : Args.t) : M unit :=
  vm <- find_vm si (Args.vm_name args) true ;;
  vm <- the_vm vm "snapshot" ;;
  snap <- revert_target vm args ;;
  task <- match snap with
          | Some snap => ret (RevertToSnapshot_Task vm snap)
          | None => raise (AttributeError "RevertToSnapshot_Task")
          end ;;
  exec_task task "Error reverting snapshot" tt ;;;
  if Args.start args then PowerOn vm ;;; ret tt else ret tt.

(** The program's last lines: read the configuration, connect, run the
    command, and turn an [EctlException] into a message and exit code 1. *)
Definition main (w : World.t) (args : Args.t)
    (func : ServiceInstance.t -> Args.t -> M unit)
    : exit_status * list event :=
  match (config <- read_config_file w args ;;
         si <- esxi_connect w config args ;;
         func si args) with
  | (Ok _, t) => (Exit 0, t)
  | (Raise (EctlException e), t) =>
      (Exit 1, (t ++ [Stdout (newline ++ "Error:" ++ newline ++ tab ++ e)])%list)
  | (Raise e, t) => (Traceback e, t)
  end.
End Commands.

(** ** Listings *)

(** [str(n)] for an integer. *)
Definition str_int (n : Z) : string :=
  DecimalString.NilZero.string_of_int (Z.to_int n).

(** A child of the inventory's root folder: a data center, which has a
    [vmFolder], or anything else. *)
Inductive root_child :=
| Datacenter (vmFolder_childEntity : list entity)
| NotDatacenter.

(** [print_vm_list]; the content [si.RetrieveContent()] returns is given by
    the children of its root folder. *)
Definition print_vm_list (rootFolder_childEntity : list root_child) : M unit :=
  emit (Stdout (_VM_PRINT_FMT "Name" "Power" "IP Address")) ;;;
  emit (Stdout (_VM_PRINT_FMT "----" "-----" "----------")) ;;;
  for_each (fun child _ =>
              match child with
              | Datacenter vm_list =>
                  for_each (fun vm _ => print_vm_info vm 1) vm_list tt
              | NotDatacenter => ret tt
              end) rootFolder_childEntity tt.

Definition _SNAP_PRINT_FMT (a b c d : string) : string :=
  ljust 6 a ++ ljust 25 b ++ ljust 30 c ++ ljust 13 d.

(** The [SnapPrinter] object; [sp_stdout] holds the lines its [apply] has
    printed so far, oldest first. *)
Record SnapPrinter := {
  sp_cont_iteration : bool;
  sp_curr_snap : option Ref;
  sp_stdout : list string
}.

Definition SnapPrinter_init (vm : VirtualMachine.t) : SnapPrinter :=
  {| sp_cont_iteration := true;
     sp_curr_snap := match VirtualMachine.snapshot vm with
                     | Some snapshot => SnapshotInfo.currentSnapshot snapshot
                     | None => None
                     end;
     sp_stdout := [] |}.

(** The lines of standard output in a trace, in order. *)
Fixpoint stdout (t : list event) : list string :=
  match t with
  | [] => []
  | Stdout line :: t => line :: stdout t
  | _ :: t => stdout t
  end.

Section Printer.
(** [createTime.strftime("%c")], which depends on the locale. *)
Variable strftime_c : Z -> string.

Definition SnapPrinter_line (curr_snap : option Ref) (snap : SnapshotTree.t)
    : string :=
  let curr := if ref_eq (SnapshotTree.snapshot snap) curr_snap then "*" else "" in
  _SNAP_PRINT_FMT (str_int (SnapshotTree.id snap)) (SnapshotTree.name snap)
                  (strftime_c (SnapshotTree.createTime snap)) curr.

Definition SnapPrinter_apply (snap : SnapshotTree.t) (self : SnapPrinter)
    : SnapPrinter :=
  {| sp_cont_iteration := sp_cont_iteration self;
     sp_curr_snap := sp_curr_snap self;
     sp_stdout := (sp_stdout self
                   ++ [SnapPrinter_line (sp_curr_snap self) snap])%list |}.

Definition SnapWorker_SnapPrinter : SnapWorker SnapPrinter := {|
  apply := SnapPrinter_apply;
  cont_iteration := sp_cont_iteration
|}.

(** [print_snapshots]; the lines the printer's [apply] prints during the walk
    are written out, in order, when the walk is over. *)
Definition print_snapshots (si : ServiceInstance.t) (args : Args.t) : M unit :=
  vm <- find_vm si (Args.vm_name args) true ;;
  vm <- the_vm vm "snapshot" ;;
  match VirtualMachine.snapshot vm with
  | None =>
      emit (Stdout ("No snapshots found for vm '{}'" ++ " " ++ Args.vm_name args))
  | Some _ =>
      emit (Stdout (_SNAP_PRINT_FMT "ID" "Name" "Creation Time" "Crnt")) ;;;
      emit (Stdout (_SNAP_PRINT_FMT "--" "----" "-------------" "----")) ;;;
      printer <- @snap_iterator _ SnapWorker_SnapPrinter vm (SnapPrinter_init vm) ;;
      for_each (fun line _ => emit (Stdout line)) (sp_stdout printer) tt
  end.
End Printer.

(** ** Reference notions for the statements *)

(** The roots of a machine's forest; a machine without snapshots has none. *)
Definition roots (vm : VirtualMachine.t) : list SnapshotTree.t :=
  match VirtualMachine.snapshot vm with
  | None => []
  | Some snapshot => SnapshotInfo.rootSnapshotList snapshot
  end.

(** Depth-first pre-order of a tree: the node, then the pre-order of each
    child in stored order. *)
Fixpoint preorder (snap : SnapshotTree.t) : list SnapshotTree.t :=
  snap :: flat_map preorder (SnapshotTree.childSnapshotList snap).

Definition preorder_forest (l : list SnapshotTree.t) : list SnapshotTree.t :=
  flat_map preorder l.

(** The nodes of a forest at depth [d]; roots are at depth 1. *)
Fixpoint at_depth (d : nat) (l : list SnapshotTree.t) : list SnapshotTree.t :=
  match d with
  | 0 => []
  | 1 => l
  | S d => at_depth d (flat_map SnapshotTree.childSnapshotList l)
  end.

(** A stand-in for [int] on plain decimal numerals, to run examples. *)
Fixpoint digits (s : string) (acc : Z) : option Z :=
  match s with
  | EmptyString => Some acc
  | String c s =>
      let n := nat_of_ascii c in
      if ((48 <=? n) && (n <=? 57))%nat
      then digits s (10 * acc + Z.of_nat (n - 48))%Z
      else None
  end.

Definition decimal (s : string) : option Z :=
  match s with
  | EmptyString => None
  | _ => digits s 0
  end.

Section WorkerNotions.
Context {W : Type} `{SnapWorker W}.

(** The worker after [apply] has run on each snapshot of [l] in turn. *)
Definition apply_all (l : list SnapshotTree.t) (w : W) : W :=
  fold_left (fun w snap => apply snap w) l w.

(** A worker that never clears its continuation flag. *)
Definition never_clears : Prop :=
  forall snap w, cont_iteration w = true -> cont_iteration (apply snap w) = true.

(** A worker whose flag, once cleared, stays cleared. *)
Definition stays_cleared : Prop :=
  forall snap w, cont_iteration w = false -> cont_iteration (apply snap w) = false.

End WorkerNotions.

(** A finder in by-name mode whose flag is set. *)
Definition by_name (w : SnapFinder) : Prop :=
  sf_identifier_type w = BY_NAME /\ sf_cont_iteration w = true.

(** How a wait on a task under [label] ends: normally for a task in state
    ["success"], with the host's fault for one in state ["error"], and with
    the [EctlException] of the label for a wait that ended on any other
    state. *)
Definition task_result (info : TaskInfo.t) (label : string) : result unit :=
  if TaskInfo.state info =? "success" then Ok tt
  else if TaskInfo.state info =? "error" then
    match TaskInfo.error info with
    | Some msg => Raise (MethodFault msg)
    | None => Raise TypeError
    end
  else Raise (EctlException label).

(** A call that is submitted and waited for. *)
Definition awaited (vm : VirtualMachine.t) (label : string) (c : RemoteCall)
    : M unit :=
  (task_result (VirtualMachine.tasks vm c) label, [Submit c; WaitFor c]).

(** A call that is submitted and left alone: it returns at once, whatever
    becomes of the task. *)
Definition unattended (c : RemoteCall) : M unit := (Ok tt, [Submit c]).

(** ** Example data *)

Definition leaf (id : Z) (name : string) (moId : string) : SnapshotTree.t :=
  SnapshotTree.Build id name 0 (ManagedObject moId) [].

Definition node_B : SnapshotTree.t := leaf 2 "B" "snapshot-2".
Definition node_C : SnapshotTree.t := leaf 3 "C" "snapshot-3".
Definition node_A : SnapshotTree.t :=
  SnapshotTree.Build 1 "A" 0 (ManagedObject "snapshot-1") [node_B; node_C].
Definition node_D : SnapshotTree.t := leaf 4 "D" "snapshot-4".

(** A host on which every task ends in [state], with [reason]. *)
Definition host_always (state : string) (reason : option string)
    : RemoteCall -> TaskInfo.t :=
  fun _ => TaskInfo.Build state reason.

Definition machine (snapshot : option SnapshotInfo.t)
    (tasks : RemoteCall -> TaskInfo.t) : VirtualMachine.t :=
  VirtualMachine.Build "vm1" "vm1" snapshot tasks.

(** Roots [[A(children: [B, C]), D]], current snapshot [B]. *)
Definition forest_ABCD : SnapshotInfo.t :=
  SnapshotInfo.Build (Some (ManagedObject "snapshot-2")) [node_A; node_D].

Definition vm_ABCD : VirtualMachine.t :=
  machine (Some forest_ABCD) (host_always "success" None).

(** A machine that never had a snapshot: [vm.snapshot] is [None]. *)
Definition vm_bare (tasks : RemoteCall -> TaskInfo.t) : VirtualMachine.t :=
  machine None tasks.

(** A chain of [S n] snapshots, each the only child of the one before. *)
Fixpoint chain (n : nat) : SnapshotTree.t :=
  SnapshotTree.Build (Z.of_nat n) "nightly" 0 (ManagedObject "snapshot")
    match n with
    | 0 => []
    | S n => [chain n]
    end.

Definition cli (vm_name : string) (snap : option string) (by_id start : bool)
    : Args.t :=
  Args.Build None None None None vm_name snap by_id start.

(** Roots [[base(id 1, children: [mid(id 2)])]], current snapshot [mid]. *)
Definition node_mid : SnapshotTree.t := leaf 2 "mid" "R2".
Definition node_base : SnapshotTree.t :=
  SnapshotTree.Build 1 "base" 0 (ManagedObject "R1") [node_mid].
Definition vm_base_mid : VirtualMachine.t :=
  machine (Some (SnapshotInfo.Build (Some (ManagedObject "R2")) [node_base]))
          (host_always "success" None).

(** A forest that is one chain of twelve snapshots. *)
Definition vm_chain : VirtualMachine.t :=
  machine (Some (SnapshotInfo.Build None [chain 11])) (host_always "success" None).

(** Roots [[daily(id 5), daily(id 7)]]. *)
Definition vm_daily : VirtualMachine.t :=
  machine (Some (SnapshotInfo.Build (Some (ManagedObject "snapshot-7"))
                   [leaf 5 "daily" "snapshot-5"; leaf 7 "daily" "snapshot-7"]))
          (host_always "success" None).

(** A world without a configuration file, whose host accepts any login. *)
Definition world_of (si : ServiceInstance.t) : World.t :=
  World.Build "/root" (fun _ => None) (fun _ _ _ => Connected si).

(** The forest [[A(children: [B, C]), D]] with a current reference that no
    node carries. *)
Definition vm_stale_current : VirtualMachine.t :=
  machine (Some (SnapshotInfo.Build (Some (ManagedObject "snapshot-99"))
                   [node_A; node_D]))
          (host_always "success" None).

(** A host on which snapshot tasks succeed and power tasks fail. *)
Definition host_power_fails : RemoteCall -> TaskInfo.t :=
  fun c =>
    match c with
    | PowerOn_call | PowerOff_call | Reset_call =>
        TaskInfo.Build "error" (Some "insufficient resources")
    | _ => TaskInfo.Build "success" None
    end.

(** The forest [[A(children: [B, C]), D]] on that host. *)
Definition vm_power_fails : VirtualMachine.t :=
  machine (Some forest_ABCD) host_power_fails.

(** A host on which every task fails with reason [disk locked]. *)
Definition vm_disk_locked : VirtualMachine.t :=
  machine (Some forest_ABCD) (host_always "error" (Some "disk locked")).

(** *** Notions for the walk of an arbitrary worker *)

(** [l] is [l'] with some elements left out. *)
Inductive subseq {A : Type} : list A -> list A -> Prop :=
| subseq_nil : subseq [] []
| subseq_skip (x : A) (l l' : list A) : subseq l l' -> subseq l (x :: l')
| subseq_take (x : A) (l l' : list A) : subseq l l' -> subseq (x :: l) (x :: l').

Section StopNotions.
Context {W : Type} `{SnapWorker W}.

(** The flag is set after each [apply] along [l]. *)
Fixpoint keeps (l : list SnapshotTree.t) (w : W) : bool :=
  match l with
  | [] => true
  | snap :: l => cont_iteration (apply snap w) && keeps l (apply snap w)
  end.

(** [l] up to and including the first snapshot at which [apply] leaves the
    flag cleared; all of [l] when there is none. *)
Fixpoint until_stop (l : list SnapshotTree.t) (w : W) : list SnapshotTree.t :=
  match l with
  | [] => []
  | snap :: l =>
      snap :: if cont_iteration (apply snap w)
              then until_stop l (apply snap w) else []
  end.
(** What a walk over [forest], started from [w], has to look like: it
    returns the worker after the visits [visited], which are the only
    events; the visits are a subsequence of the pre-order that starts with
    the pre-order up to the first stop, and all of it when there is none. *)
Definition walk_shape (m : M W) (w : W) (order : list SnapshotTree.t) : Prop :=
  exists visited more,
    m = (Ok (apply_all visited w), map Apply visited)
    /\ subseq visited order
    /\ visited = (until_stop order w ++ more)%list
    /\ (keeps order w = true -> more = []).

End StopNotions.

(** The finder [SnapFinder.__init__] builds for a name, and for an id. *)
Definition by_name_finder (identifier : string) : SnapFinder :=
  {| sf_cont_iteration := true;
     sf_identifier_type := BY_NAME;
     sf_identifier := StrIdentifier (Some identifier);
     sf_snaps := [] |}.

Definition by_id_finder (identifier : Z) : SnapFinder :=
  {| sf_cont_iteration := true;
     sf_identifier_type := BY_ID;
     sf_identifier := IntIdentifier identifier;
     sf_snaps := [] |}.

(** The messages of [find_snap]. *)
Definition no_such_snapshot (vm : VirtualMachine.t) (identifier : string) : exn :=
  EctlException ("VM '" ++ VirtualMachine.summary_config_name vm
                 ++ "' has no such snapshot - '" ++ identifier ++ "'").

Definition multiple_snapshots (vm : VirtualMachine.t) (identifier : string) : exn :=
  EctlException ("VM '" ++ VirtualMachine.summary_config_name vm
                 ++ "' has multiple snapshots named '" ++ identifier
                 ++ "', use snapshot ID").

(** What a finder looks for, as a test on snapshots. *)
Definition sf_matches (w : SnapFinder) (snap : SnapshotTree.t) : bool :=
  if (sf_identifier_type w =? BY_NAME)%Z
  then name_eq (SnapshotTree.name snap) (sf_identifier w)
  else id_eq (SnapshotTree.id snap) (sf_identifier w).

Definition carries (snap_ref : option Ref) (snap : SnapshotTree.t) : bool :=
  ref_eq (SnapshotTree.snapshot snap) snap_ref.

(** The machines of an inventory entity, left to right. *)
Fixpoint machines (vm : entity) : list Summary.t :=
  match vm with
  | Folder vm_list => flat_map machines vm_list
  | Machine summary => [summary]
  end.

(** The number of nested groups: 0 for a machine, 1 for a group of
    machines. *)
Fixpoint groups_height (vm : entity) : nat :=
  match vm with
  | Folder vm_list => S (fold_right (fun child h => Nat.max (groups_height child) h) 0 vm_list)
  | Machine _ => 0
  end.

(** The power and address columns of a machine's line. *)
Definition power_column (summary : Summary.t) : string :=
  if Summary.runtime_powerState summary =? "poweredOn" then "On"
  else if Summary.runtime_powerState summary =? "poweredOff" then "Off"
  else "n/a".

Definition ip_column (summary : Summary.t) : string :=
  if Summary.runtime_powerState summary =? "poweredOn"
  then match Summary.guest_ipAddress summary with
       | Some ip => ip
       | None => "n/a"
       end
  else "n/a".

Definition vm_line (summary : Summary.t) : string :=
  _VM_PRINT_FMT (Summary.config_name summary) (power_column summary)
                (ip_column summary).

(** What [main] prints for an [EctlException]. *)
Definition error_banner (error : string) : event :=
  Stdout (newline ++ "Error:" ++ newline ++ tab ++ error).

(** Reading the configuration and connecting, the part of [main] that comes
    before the command. *)
Definition connect_with_config (w : World.t) (args : Args.t)
    : M ServiceInstance.t :=
  config <- read_config_file w args ;;
  esxi_connect w config args.

(** The machines in the [vmFolder] of each data center, in order. *)
Definition listed_machines (rootFolder_childEntity : list root_child)
    : list Summary.t :=
  flat_map (fun child =>
              match child with
              | Datacenter vm_list => flat_map machines vm_list
              | NotDatacenter => []
              end) rootFolder_childEntity.

(** A small inventory: a group holding a machine and a group of one
    machine. *)
Definition summary_web : Summary.t :=
  Summary.Build "web" "poweredOn" (Some "10.0.0.5").
Definition summary_db : Summary.t :=
  Summary.Build "db" "poweredOff" (Some "10.0.0.6").
Definition group_example : entity :=
  Folder [Machine summary_web; Folder [Machine summary_db]].

(** A world whose only file is [content] at [path], and whose host accepts
    any login. *)
Definition world_with_file (path : string) (content : file)
    (si : ServiceInstance.t) : World.t :=
  World.Build "/root"
    (fun p => if p =? path then Some content else None)
    (fun _ _ _ => Connected si).

(** The path [read_config_file] reads. *)
Definition config_path (w : World.t) (args : Args.t) : string :=
  match Args.config args with
  | None => World.home w ++ "/.local/config/ectl.json"
  | Some path => path
  end.

(** A setting after the merge, in the spec's words: the flag when it is
    given; otherwise the value the configuration object [d] has under the
    key, and unset ([JNull]) when it has no such key. *)
Definition merged (flag : option string) (d : list (string * json))
    (name : string) (v : json) : Prop :=
  match flag with
  | Some given => v = JString given
  | None => In (name, v) d \/ (v = JNull /\ ~ In name (map fst d))
  end.

(** ** Facts about the trace monad and the walk *)

Lemma SnapshotTree_nested_ind (P : SnapshotTree.t -> Prop) :
  (forall id name createTime snapshot children,
      Forall P children ->
      P (SnapshotTree.Build id name createTime snapshot children)) ->
  forall snap, P snap.
Proof.
  intros step.
  fix IH 1.
  intros [id name createTime snapshot children].
  apply step.
  induction children as [|c children IHc]; constructor.
  - apply IH.
  - exact IHc.
Qed.

Lemma bind_Ok {A B} (a : A) (t : list event) (f : A -> M B) :
  bind (Ok a, t) f = (fst (f a), (t ++ snd (f a))%list).
Proof. unfold bind. destruct (f a); reflexivity. Qed.

Lemma bind_Raise {A B} (e : exn) (t : list event) (f : A -> M B) :
  bind (Raise e, t) f = (Raise e, t).
Proof. reflexivity. Qed.

Lemma for_each_nil {A W} (body : A -> W -> M W) (w : W) :
  for_each body [] w = ret w.
Proof. reflexivity. Qed.

Lemma for_each_cons {A W} (body : A -> W -> M W) (a : A) (l : list A) (w : W) :
  for_each body (a :: l) w = (w <- body a w ;; for_each body l w).
Proof. reflexivity. Qed.

Lemma applied_app (t t' : list event) :
  applied (t ++ t') = (applied t ++ applied t')%list.
Proof.
  induction t as [|e t IH]; simpl; auto.
  destruct e; simpl; rewrite ?IH; reflexivity.
Qed.

Lemma applied_map_Apply (l : list SnapshotTree.t) :
  applied (map Apply l) = l.
Proof. induction l; simpl; congruence. Qed.

Lemma submitted_map_Apply (l : list SnapshotTree.t) :
  submitted (map Apply l) = [].
Proof. induction l; simpl; auto. Qed.

Lemma waited_map_Apply (l : list SnapshotTree.t) :
  waited (map Apply l) = [].
Proof. induction l; simpl; auto. Qed.

Section WalkFacts.
Context {W : Type} `{SnapWorker W}.

Lemma apply_all_app (l l' : list SnapshotTree.t) (w : W) :
  apply_all (l ++ l') w = apply_all l' (apply_all l w).
Proof. apply fold_left_app. Qed.

Lemma _snap_iterator_eq (snap : SnapshotTree.t) (w : W) :
  _snap_iterator snap w =
  if negb (cont_iteration (apply snap w))
  then (Ok (apply snap w), [Apply snap])
  else
    let m := for_each _snap_iterator (SnapshotTree.childSnapshotList snap)
                      (apply snap w) in
    (fst m, Apply snap :: snd m).
Proof.
  destruct snap as [id name createTime snapshot children].
  cbn [_snap_iterator]. unfold call_apply, emit, ret.
  rewrite !bind_Ok. cbn [fst snd app].
  rewrite bind_Ok. cbn [SnapshotTree.childSnapshotList].
  destruct (negb _); reflexivity.
Qed.

Section KeepsGoing.
(** A set of worker states that [apply] never leaves and in which the
    flag is set. *)
Variable inv : W -> Prop.
Hypothesis inv_apply : forall snap w, inv w -> inv (apply snap w).
Hypothesis inv_cont : forall w, inv w -> cont_iteration w = true.

Lemma apply_all_inv (l : list SnapshotTree.t) :
  forall w, inv w -> inv (apply_all l w).
Proof. induction l as [|snap l IH]; intros w Hw; simpl; auto. Qed.

(** A loop whose body walks [visit snap] runs it on every element. *)
Lemma for_each_total (body : SnapshotTree.t -> W -> M W)
    (visit : SnapshotTree.t -> list SnapshotTree.t)
    (l : list SnapshotTree.t) :
  Forall (fun snap => forall w, inv w ->
            body snap w =
            (Ok (apply_all (visit snap) w), map Apply (visit snap))) l ->
  forall w, inv w ->
    for_each body l w =
    (Ok (apply_all (flat_map visit l) w), map Apply (flat_map visit l)).
Proof.
  intros Hl. induction Hl as [|snap l Hsnap Hl IH]; intros w Hw.
  - reflexivity.
  - rewrite for_each_cons, (Hsnap w Hw), bind_Ok.
    rewrite IH by (apply apply_all_inv; assumption).
    cbn [fst snd flat_map]. rewrite apply_all_app, map_app. reflexivity.
Qed.

(** While the flag stays set, the walk of a tree applies the worker
    along the tree's pre-order and returns. *)
Lemma _snap_iterator_total :
  forall snap w, inv w ->
    _snap_iterator snap w =
    (Ok (apply_all (preorder snap) w), map Apply (preorder snap)).
Proof.
  intros snap.
  induction snap as [id name createTime snapshot children IH]
    using SnapshotTree_nested_ind.
  intros w Hw. rewrite _snap_iterator_eq.
  rewrite (inv_cont _ (inv_apply _ w Hw)).
  cbn [negb SnapshotTree.childSnapshotList].
  rewrite (for_each_total _ preorder children IH) by (apply inv_apply; exact Hw).
  reflexivity.
Qed.

Lemma snap_iterator_total :
  forall vm w, inv w ->
    snap_iterator vm w =
    (Ok (apply_all (preorder_forest (roots vm)) w),
     map Apply (preorder_forest (roots vm))).
Proof.
  intros vm w Hw. unfold snap_iterator, roots.
  destruct (VirtualMachine.snapshot vm) as [snapshot|]; [|reflexivity].
  apply for_each_total; auto.
  apply Forall_forall. intros snap _. apply _snap_iterator_total.
Qed.
End KeepsGoing.

(** Once the flag is cleared and stays so, the walk of a tree still
    applies the worker to the tree's root, and to nothing below it. *)
Lemma _snap_iterator_stopped : stays_cleared ->
  forall snap w, cont_iteration w = false ->
    _snap_iterator snap w = (Ok (apply snap w), [Apply snap]).
Proof.
  intros stay snap w Hw. rewrite _snap_iterator_eq, (stay _ w Hw). reflexivity.
Qed.

(** ... so a loop over siblings applies the worker to each of them. *)
Lemma for_each_stopped : stays_cleared ->
  forall l w, cont_iteration w = false ->
    for_each _snap_iterator l w = (Ok (apply_all l w), map Apply l).
Proof.
  intros stay l. induction l as [|snap l IH]; intros w Hw.
  - reflexivity.
  - rewrite for_each_cons, _snap_iterator_stopped, bind_Ok by assumption.
    rewrite IH by (apply stay; exact Hw). reflexivity.
Qed.
End WalkFacts.

Lemma bind_ret {A B} (a : A) (f : A -> M B) : bind (ret a) f = f a.
Proof. unfold ret. rewrite bind_Ok. destruct (f a); reflexivity. Qed.

Lemma in_preorder_self (snap : SnapshotTree.t) : In snap (preorder snap).
Proof. destruct snap; left; reflexivity. Qed.

Lemma in_preorder_child (child parent x : SnapshotTree.t) :
  In child (SnapshotTree.childSnapshotList parent) ->
  In x (preorder child) -> In x (preorder parent).
Proof.
  intros Hc Hx. destruct parent as [id name createTime snapshot children].
  right. apply in_flat_map. exists child. split; assumption.
Qed.

Lemma preorder_forest_children (l : list SnapshotTree.t) (x : SnapshotTree.t) :
  In x (preorder_forest (flat_map SnapshotTree.childSnapshotList l)) ->
  In x (preorder_forest l).
Proof.
  unfold preorder_forest. rewrite !in_flat_map.
  intros [child [Hchild Hx]]. apply in_flat_map in Hchild.
  destruct Hchild as [parent [Hparent Hchild]].
  exists parent. split; [assumption|].
  apply in_preorder_child with child; assumption.
Qed.

(** Every node of a forest, whatever its depth, is in the pre-order. *)
Lemma at_depth_preorder (d : nat) :
  forall l x, In x (at_depth d l) -> In x (preorder_forest l).
Proof.
  induction d as [|d IH]; intros l x Hx.
  - destruct Hx.
  - destruct d as [|d].
    + apply in_flat_map. exists x. split; [exact Hx | apply in_preorder_self].
    + apply preorder_forest_children. apply IH. exact Hx.
Qed.

(** *** The by-name finder *)

Lemma by_name_apply (snap : SnapshotTree.t) (w : SnapFinder) :
  by_name w -> by_name (apply snap w).
Proof.
  intros [Htype Hcont]. unfold by_name. cbn [apply SnapWorker_SnapFinder].
  unfold SnapFinder_apply. rewrite Htype. cbn [Z.eqb BY_NAME Pos.eqb].
  destruct (name_eq _ _); cbn; auto.
Qed.

Lemma by_name_cont (w : SnapFinder) : by_name w -> cont_iteration w = true.
Proof. intros [_ Hcont]. exact Hcont. Qed.

Lemma by_name_identifier (l : list SnapshotTree.t) :
  forall w, by_name w -> sf_identifier (apply_all l w) = sf_identifier w.
Proof.
  induction l as [|snap l IH]; intros w Hw; [reflexivity|].
  cbn [apply_all fold_left]. change (fold_left _ l ?x) with (apply_all l x).
  rewrite IH by (apply by_name_apply; exact Hw).
  destruct Hw as [Htype _]. cbn [apply SnapWorker_SnapFinder].
  unfold SnapFinder_apply. rewrite Htype. cbn [Z.eqb BY_NAME Pos.eqb].
  destruct (name_eq _ _); reflexivity.
Qed.

(** By name, the finder collects exactly the snapshots whose name is the
    identifier, in the order it meets them. *)
Lemma by_name_snaps (l : list SnapshotTree.t) :
  forall w, by_name w ->
    sf_snaps (apply_all l w) =
    (sf_snaps w ++
     filter (fun snap => name_eq (SnapshotTree.name snap) (sf_identifier w)) l)%list.
Proof.
  induction l as [|snap l IH]; intros w Hw.
  - cbn. rewrite app_nil_r. reflexivity.
  - cbn [apply_all fold_left]. change (fold_left _ l ?x) with (apply_all l x).
    rewrite IH by (apply by_name_apply; exact Hw).
    destruct Hw as [Htype _]. cbn [apply SnapWorker_SnapFinder filter].
    unfold SnapFinder_apply. rewrite Htype. cbn [Z.eqb BY_NAME Pos.eqb].
    destruct (name_eq _ _) eqn:E; cbn [sf_snaps sf_identifier].
    + rewrite <- app_assoc. reflexivity.
    + reflexivity.
Qed.

(** *** Runs on small forests *)

Example find_snap_by_id_2 :
  outcome_of (find_snap decimal vm_base_mid (cli "vm1" (Some "2") true false))
  = Ok node_mid.
Proof. reflexivity. Qed.

Example find_snap_by_name_base :
  outcome_of (find_snap decimal vm_base_mid (cli "vm1" (Some "base") false false))
  = Ok node_base.
Proof. reflexivity. Qed.

Example find_snap_by_name_absent :
  outcome_of (find_snap decimal vm_base_mid (cli "vm1" (Some "weekly") false false))
  = Raise (EctlException "VM 'vm1' has no such snapshot - 'weekly'").
Proof. reflexivity. Qed.

Example get_curr_snap_mid :
  outcome_of (get_curr_snap vm_base_mid) = Ok (Some node_mid).
Proof. reflexivity. Qed.

Example snap_iterator_bare_machine :
  snap_iterator (vm_bare (host_always "success" None)) BaseWorker_init
  = (Ok BaseWorker_init, []).
Proof. reflexivity. Qed.

(** The group listing, for its part, stops at [_MAX_DEPTH]. *)
Lemma print_vm_info_beyond_MAX_DEPTH (vm_list : list entity) (depth : nat) :
  _MAX_DEPTH < depth -> print_vm_info (Folder vm_list) depth = ret tt.
Proof.
  intros Hdepth. cbn [print_vm_info].
  destruct (Nat.ltb_spec _MAX_DEPTH depth) as [_|Hle]; [reflexivity | lia].
Qed.

Lemma BaseWorker_never_clears : @never_clears BaseWorker _.
Proof. intros snap w Hw. exact Hw. Qed.

Lemma exec_task_invoke {A} (vm : VirtualMachine.t) (c : A -> RemoteCall)
    (label : string) (a : A) :
  exec_task (fun a => invoke vm (c a)) label a = awaited vm label (c a).
Proof.
  unfold exec_task, invoke, WaitForTask, awaited, task_result, raise_info_error,
    emit, ret.
  rewrite !bind_Ok. cbn -[String.eqb].
  destruct (String.eqb_spec (TaskInfo.state (VirtualMachine.tasks vm (c a)))
              "error") as [E|_].
  - rewrite E. cbn.
    destruct (TaskInfo.error (VirtualMachine.tasks vm (c a))); reflexivity.
  - cbn -[String.eqb]. destruct (_ =? "success"); reflexivity.
Qed.

(** ** The claims *)

(** C7.  For every forest and every worker that never clears its
    continuation flag, [snap_iterator] returns, and the snapshots it applies
    the worker to are the forest's nodes in depth-first pre-order: a node
    before its children, roots and siblings in stored order. *)
Theorem snap_iterator_visits_in_preorder {W : Type} `{SnapWorker W}
    (vm : VirtualMachine.t) (worker : W) :
  never_clears ->
  cont_iteration worker = true ->
  applied (trace_of (snap_iterator vm worker)) = preorder_forest (roots vm)
  /\ outcome_of (snap_iterator vm worker)
     = Ok (apply_all (preorder_forest (roots vm)) worker).
Proof.
  intros keep Hw.
  rewrite (snap_iterator_total (fun w => cont_iteration w = true)); auto.
  split; [apply applied_map_Apply | reflexivity].
Qed.

(** C7, on the forest with roots [[A(children: [B, C]), D]]: the order is
    A, B, C, D. *)
Lemma snap_iterator_visits_ABCD :
  applied (trace_of (snap_iterator vm_ABCD BaseWorker_init))
  = [node_A; node_B; node_C; node_D].
Proof.
  exact (proj1 (snap_iterator_visits_in_preorder vm_ABCD BaseWorker_init
                  BaseWorker_never_clears eq_refl)).
Defined.

(** C4, as the code has it.  The snapshot walk has no depth cap and never
    leaves a subtree out for its depth: for every forest and every worker
    that never clears its flag, the snapshots visited are an initial stretch
    of the forest's pre-order, and whenever the walk returns, every node of
    the forest, at every depth, has been visited. *)
Theorem snap_iterator_never_prunes_by_depth {W : Type} `{SnapWorker W}
    (vm : VirtualMachine.t) (worker : W) :
  never_clears ->
  cont_iteration worker = true ->
  (exists rest,
     preorder_forest (roots vm)
     = (applied (trace_of (snap_iterator vm worker)) ++ rest)%list)
  /\ forall worker',
       outcome_of (snap_iterator vm worker) = Ok worker' ->
       forall d snap,
         In snap (at_depth d (roots vm)) ->
         In snap (applied (trace_of (snap_iterator vm worker))).
Proof.
  intros keep Hw.
  rewrite (snap_iterator_total (fun w => cont_iteration w = true)); auto.
  cbn [trace_of snd]. rewrite applied_map_Apply. split.
  - exists []. rewrite app_nil_r. reflexivity.
  - intros worker' _ d snap Hd. apply at_depth_preorder with d. exact Hd.
Qed.

(** C4, on the forest [[A(children: [B, C]), D]]: the walk returns, and C,
    at depth 2, is visited. *)
Lemma snap_iterator_visits_depth_2 :
  In node_C (applied (trace_of (snap_iterator vm_ABCD BaseWorker_init))).
Proof.
  apply (proj2 (snap_iterator_never_prunes_by_depth vm_ABCD BaseWorker_init
                  BaseWorker_never_clears eq_refl)
               BaseWorker_init eq_refl 2).
  right; left; reflexivity.
Defined.

(** C4 fails as stated: in a chain of twelve snapshots the last one lies at
    depth 12, beyond [_MAX_DEPTH], and the walk applies the worker to it. *)
Lemma snap_iterator_goes_beyond_MAX_DEPTH :
  _MAX_DEPTH < 12
  /\ In (chain 0) (at_depth 12 (roots vm_chain))
  /\ In (chain 0) (applied (trace_of (snap_iterator vm_chain BaseWorker_init))).
Proof.
  split; [unfold _MAX_DEPTH; lia|].
  split; [left; reflexivity|].
  vm_compute. do 11 right. left. reflexivity.
Qed.

(** C1.  The walk does not stop at the node where the flag is cleared.  On
    the forest [[A(children: [B, C]), D]], the current-snapshot finder
    clears its flag at B; the walk goes on to apply it to C, the remaining
    sibling of B, and to D, the later root. *)
Theorem walk_goes_on_after_flag_is_cleared :
  let worker := CurrSnapFinder_init (Some (SnapshotTree.snapshot node_B)) in
  cont_iteration (apply_all [node_A] worker) = true
  /\ cont_iteration (apply_all [node_A; node_B] worker) = false
  /\ applied (trace_of (snap_iterator vm_ABCD worker))
     = [node_A; node_B; node_C; node_D].
Proof. repeat split; reflexivity. Qed.

(** C6.  By name, when two or more nodes of the forest carry the identifier
    as their name, [find_snap] fails with the error that tells the caller to
    use the snapshot ID, after a walk that applied the finder to every node
    of the forest; and [apply], by name, leaves the flag as it was. *)
Theorem find_snap_by_name_ambiguous (int : string -> option Z)
    (vm : VirtualMachine.t) (args : Args.t) (identifier : string) :
  Args.by_id args = false ->
  Args.snap args = Some identifier ->
  2 <= List.length (filter (fun snap => SnapshotTree.name snap =? identifier)
                           (preorder_forest (roots vm))) ->
  find_snap int vm args
  = (Raise (EctlException ("VM '" ++ VirtualMachine.summary_config_name vm
                           ++ "' has multiple snapshots named '" ++ identifier
                           ++ "', use snapshot ID")),
     map Apply (preorder_forest (roots vm)))
  /\ forall snap w,
       sf_identifier_type w = BY_NAME ->
       cont_iteration (apply snap w) = cont_iteration w.
Proof.
  intros Hmode Hsnap Hmany. split.
  - unfold find_snap. rewrite Hmode, Hsnap. unfold SnapFinder_init.
    cbn [Z.eqb BY_NAME Pos.eqb]. rewrite bind_ret.
    rewrite (snap_iterator_total by_name by_name_apply by_name_cont)
      by (split; reflexivity).
    rewrite bind_Ok. rewrite by_name_snaps by (split; reflexivity).
    cbn [sf_snaps sf_identifier app name_eq format_str].
    set (matches := filter _ _) in *.
    destruct matches as [|s1 [|s2 matches]]; cbn in Hmany; try lia.
    cbn. rewrite app_nil_r. reflexivity.
  - intros snap w Htype. cbn [apply cont_iteration SnapWorker_SnapFinder].
    unfold SnapFinder_apply. rewrite Htype. cbn [Z.eqb BY_NAME Pos.eqb].
    destruct (name_eq _ _); reflexivity.
Qed.

(** C6, on two snapshots both named daily. *)
Lemma find_snap_daily_ambiguous :
  find_snap decimal vm_daily (cli "vm1" (Some "daily") false false)
  = (Raise (EctlException
              "VM 'vm1' has multiple snapshots named 'daily', use snapshot ID"),
     [Apply (leaf 5 "daily" "snapshot-5"); Apply (leaf 7 "daily" "snapshot-7")]).
Proof.
  apply (proj1 (find_snap_by_name_ambiguous decimal vm_daily
                  (cli "vm1" (Some "daily") false false) "daily"
                  eq_refl eq_refl (le_n 2))).
Defined.

(** C8.  By id, an identifier that [int] rejects makes [find_snap] fail with
    the illegal-id error before the walk starts: the trace is empty, so the
    finder was applied to no node. *)
Theorem find_snap_by_id_rejects_non_integer (int : string -> option Z)
    (vm : VirtualMachine.t) (args : Args.t) (identifier : string) :
  Args.by_id args = true ->
  Args.snap args = Some identifier ->
  int identifier = None ->
  find_snap int vm args
  = (Raise (EctlException ("Illegal snap id - '" ++ identifier ++ "'")), []).
Proof.
  intros Hmode Hsnap Hint. unfold find_snap. rewrite Hmode, Hsnap.
  unfold SnapFinder_init. cbn [Z.eqb BY_ID BY_NAME Pos.eqb]. rewrite Hint.
  reflexivity.
Qed.

(** C8, on the identifier [A] and a forest that has a node of that name. *)
Lemma find_snap_by_id_rejects_base :
  find_snap decimal vm_ABCD (cli "vm1" (Some "A") true false)
  = (Raise (EctlException "Illegal snap id - 'A'"), []).
Proof.
  apply (find_snap_by_id_rejects_non_integer decimal vm_ABCD
           (cli "vm1" (Some "A") true false) "A" eq_refl eq_refl eq_refl).
Defined.

(** C9.  A configuration file that holds JSON other than an object breaks
    the merge.  With a file holding [[]] and no host flag,
    [_determine_setting] indexes the value by the key, which raises
    [TypeError]: no missing-setting error is raised, and the program ends in
    a traceback, before any connection attempt. *)
Theorem non_object_config_is_uncaught :
  let w := world_with_file "/root/.local/config/ectl.json" (Parsed (JArray []))
             (ServiceInstance.Build [vm_ABCD]) in
  let args := cli "vm1" None false false in
  read_config_file w args = ret (JArray [])
  /\ _determine_setting (Args.host args) (JArray []) "host" = raise TypeError
  /\ esxi_connect w (JArray []) args = (Raise TypeError, [])
  /\ main w args start_vm = (Traceback TypeError, []).
Proof. repeat split. Qed.



(** *** The task protocol *)

(** C2, as the code has it.  Creating, removing and reverting to a snapshot
    go through [exec_task]: the call is submitted, its task is waited for,
    and the command returns normally exactly when the task ended in
    ["success"].  Power on, power off and reset -- in [start], [stop],
    [reset] and after a revert -- are submitted and not waited for: the
    command returns normally whatever state their task ends in. *)
Theorem snapshot_calls_are_awaited_power_calls_are_not
    (int : string -> option Z) (si : ServiceInstance.t) (args : Args.t)
    (vm : VirtualMachine.t) :
  find_vm_loop (ServiceInstance.view si) (Args.vm_name args) = Some vm ->
  let succeeded c := TaskInfo.state (VirtualMachine.tasks vm c) = "success" in
  (let create := CreateSnapshot_call (Args.snap args) "" false false in
   trace_of (snap_create si args) = [Submit create; WaitFor create]
   /\ (outcome_of (snap_create si args) = Ok tt <-> succeeded create))
  /\ (forall snap t,
        find_snap int vm args = (Ok snap, t) ->
        let remove := RemoveSnapshot_call (SnapshotTree.snapshot snap) true in
        trace_of (snap_remove int si args)
        = (t ++ [Submit remove; WaitFor remove])%list
        /\ (outcome_of (snap_remove int si args) = Ok tt <-> succeeded remove))
  /\ (forall snap t,
        revert_target int vm args = (Ok (Some snap), t) ->
        let revert := RevertToSnapshot_call snap in
        (outcome_of (snap_revert int si args) = Ok tt <-> succeeded revert)
        /\ trace_of (snap_revert int si args)
           = (t ++ Submit revert :: WaitFor revert
                :: match outcome_of (snap_revert int si args) with
                   | Ok _ => if Args.start args then [Submit PowerOn_call] else []
                   | Raise _ => []
                   end)%list)
  /\ start_vm si args = unattended PowerOn_call
  /\ stop_vm si args = unattended PowerOff_call
  /\ reset_vm si args = unattended Reset_call.
Proof.
  intros Hvm succeeded.
  assert (find_vm si (Args.vm_name args) true = ret (Some vm)) as Hfind
    by (unfold find_vm; rewrite Hvm; reflexivity).
  assert (forall c label,
             outcome_of (awaited vm label c) = Ok tt <-> succeeded c) as Hok.
  { intros c label. unfold awaited, task_result, succeeded.
    cbn [outcome_of fst].
    destruct (String.eqb_spec (TaskInfo.state (VirtualMachine.tasks vm c))
                "success") as [E|E].
    - split; auto.
    - split; [|contradiction].
      destruct (_ =? "error"); [destruct (TaskInfo.error _)|]; discriminate. }
  split; [|split; [|split; [|split; [|split]]]].
  - unfold snap_create. rewrite Hfind, bind_ret. cbn [the_vm]. rewrite bind_ret.
    change (exec_task (CreateSnapshot vm) "Error creating snapshot"
              (Args.snap args, "", false, false))
      with (exec_task
              (fun _ : unit =>
                 invoke vm (CreateSnapshot_call (Args.snap args) "" false false))
              "Error creating snapshot" tt).
    rewrite (exec_task_invoke vm
               (fun _ : unit => CreateSnapshot_call (Args.snap args) "" false false)).
    split; [reflexivity | apply Hok].
  - intros snap t Hsnap. unfold snap_remove.
    rewrite Hfind, bind_ret. cbn [the_vm]. rewrite bind_ret, Hsnap, bind_Ok.
    unfold RemoveSnapshot_Task.
    rewrite (exec_task_invoke vm (RemoveSnapshot_call (SnapshotTree.snapshot snap))).
    split; [reflexivity | apply Hok].
  - intros snap t Htarget. unfold snap_revert.
    rewrite Hfind, bind_ret. cbn [the_vm]. rewrite bind_ret, Htarget, bind_Ok.
    rewrite bind_ret. unfold RevertToSnapshot_Task.
    rewrite (exec_task_invoke vm (fun _ : unit => RevertToSnapshot_call snap)).
    pose proof (Hok (RevertToSnapshot_call snap) "Error reverting snapshot") as Hrev.
    unfold awaited in *. cbn [outcome_of fst] in Hrev.
    destruct (task_result (VirtualMachine.tasks vm (RevertToSnapshot_call snap))
                "Error reverting snapshot") as [[]|e].
    + destruct (Args.start args); cbn; (split; [exact Hrev | reflexivity]).
    + cbn. split; [exact Hrev | reflexivity].
  - unfold start_vm. rewrite Hfind, bind_ret. reflexivity.
  - unfold stop_vm. rewrite Hfind, bind_ret. reflexivity.
  - unfold reset_vm. rewrite Hfind, bind_ret. reflexivity.
Qed.

(** C2, on a machine whose host refuses to power it on: the revert is
    waited for, the power-on after it is not. *)
Lemma revert_then_unattended_power_on :
  trace_of (snap_revert decimal (ServiceInstance.Build [vm_power_fails])
              (cli "vm1" None false true))
  = [Submit (RevertToSnapshot_call (ManagedObject "snapshot-2"));
     WaitFor (RevertToSnapshot_call (ManagedObject "snapshot-2"));
     Submit PowerOn_call].
Proof.
  pose proof (snapshot_calls_are_awaited_power_calls_are_not decimal
                (ServiceInstance.Build [vm_power_fails])
                (cli "vm1" None false true) vm_power_fails eq_refl)
    as [_ [_ [Hrevert _]]].
  exact (proj2 (Hrevert (ManagedObject "snapshot-2") [] eq_refl)).
Defined.

(** C2 fails as stated: on a host where every power task ends in
    ["error"], [start] returns normally without waiting for its task, and so
    does [revert] with [--start] after the revert itself succeeded. *)
Lemma power_on_failure_is_not_surfaced :
  let si := ServiceInstance.Build [vm_power_fails] in
  TaskInfo.state (VirtualMachine.tasks vm_power_fails PowerOn_call) = "error"
  /\ outcome_of (start_vm si (cli "vm1" None false false)) = Ok tt
  /\ submitted (trace_of (start_vm si (cli "vm1" None false false)))
     = [PowerOn_call]
  /\ waited (trace_of (start_vm si (cli "vm1" None false false))) = []
  /\ outcome_of (snap_revert decimal si (cli "vm1" None false true)) = Ok tt
  /\ In PowerOn_call
        (submitted (trace_of (snap_revert decimal si (cli "vm1" None false true))))
  /\ ~ In PowerOn_call
        (waited (trace_of (snap_revert decimal si (cli "vm1" None false true)))).
Proof.
  cbn. repeat split; auto.
  intros [H|[]]. discriminate H.
Qed.

(** C3.  A task that ends in failure does not give the labelled error.  On
    a host whose removal task ends in state ["error"] with reason
    [disk locked], the wait itself raises the host's fault, so [exec_task]
    never reaches its own [raise]: the fault carries no label, is not an
    [EctlException], and ends the program in a traceback. *)
Theorem failed_task_raises_the_host_fault :
  let si := ServiceInstance.Build [vm_disk_locked] in
  let args := Args.Build None (Some "esx1") (Some "root") (Some "secret")
                         "vm1" (Some "B") false false in
  let remove := RemoveSnapshot_call (ManagedObject "snapshot-2") true in
  VirtualMachine.tasks vm_disk_locked remove
  = TaskInfo.Build "error" (Some "disk locked")
  /\ exec_task (RemoveSnapshot_Task vm_disk_locked (ManagedObject "snapshot-2"))
       "Error removing snapshots" true
     = (Raise (MethodFault "disk locked"), [Submit remove; WaitFor remove])
  /\ snap_remove decimal si args
     = (Raise (MethodFault "disk locked"),
        [Apply node_A; Apply node_B; Apply node_C; Apply node_D;
         Submit remove; WaitFor remove])
  /\ fst (main (world_of si) args (snap_remove decimal))
     = Traceback (MethodFault "disk locked").
Proof. repeat split. Qed.

(** C5.  On a machine without snapshots, [revert] with no identifier raises
    [AttributeError], which the program's handler does not catch: it ends in
    a traceback, not in a named error.  The same happens when [vm.snapshot]
    is present with no roots and no current reference. *)
Theorem revert_on_empty_forest_is_uncaught :
  let args := Args.Build None (Some "esx1") (Some "root") (Some "secret")
                         "vm1" None false false in
  let bare := ServiceInstance.Build [vm_bare (host_always "success" None)] in
  let empty := ServiceInstance.Build
                 [machine (Some (SnapshotInfo.Build None []))
                          (host_always "success" None)] in
  snap_revert decimal bare args = (Raise (AttributeError "currentSnapshot"), [])
  /\ fst (main (world_of bare) args (snap_revert decimal))
     = Traceback (AttributeError "currentSnapshot")
  /\ snap_revert decimal empty args
     = (Raise (AttributeError "RevertToSnapshot_Task"), [])
  /\ fst (main (world_of empty) args (snap_revert decimal))
     = Traceback (AttributeError "RevertToSnapshot_Task").
Proof. repeat split. Qed.

(** ** Further properties *)

(** *** Subsequences *)


Lemma subseq_nil_l {A} (l : list A) : subseq [] l.
Proof. induction l; constructor; assumption. Qed.

Lemma subseq_app {A} (l1 l1' l2 l2' : list A) :
  subseq l1 l1' -> subseq l2 l2' -> subseq (l1 ++ l2) (l1' ++ l2').
Proof.
  intros H1 H2. induction H1; cbn; try constructor; assumption.
Qed.

Lemma subseq_In {A} (l l' : list A) (x : A) :
  subseq l l' -> In x l -> In x l'.
Proof.
  intros Hs. induction Hs as [|y l l' Hs IH|y l l' Hs IH]; intros Hx.
  - exact Hx.
  - right. apply IH. exact Hx.
  - destruct Hx as [Hx|Hx]; [left; exact Hx | right; apply IH; exact Hx].
Qed.

Lemma subseq_filter {A} (f : A -> bool) (l l' : list A) :
  subseq l l' -> subseq (filter f l) (filter f l').
Proof.
  intros Hs. induction Hs as [|y l l' Hs IH|y l l' Hs IH]; cbn.
  - constructor.
  - destruct (f y); [constructor|]; exact IH.
  - destruct (f y); [constructor|]; exact IH.
Qed.

Lemma subseq_length {A} (l l' : list A) :
  subseq l l' -> List.length l <= List.length l'.
Proof. intros Hs. induction Hs; cbn; lia. Qed.

Lemma subseq_of_nil {A} (l : list A) : subseq l [] -> l = [].
Proof. intros Hs. inversion Hs. reflexivity. Qed.

Lemma subseq_of_singleton {A} (l : list A) (x : A) :
  subseq l [x] -> l = [] \/ l = [x].
Proof.
  intros Hs. inversion Hs as [|y l1 l1' Hs'|y l1 l1' Hs']; subst.
  - left. apply subseq_of_nil. exact Hs'.
  - right. f_equal. apply subseq_of_nil. exact Hs'.
Qed.

(** *** The walk of an arbitrary worker *)

Section WalkShape.
Context {W : Type} `{SnapWorker W}.

Lemma keeps_app (l l' : list SnapshotTree.t) :
  forall w, keeps (l ++ l') w = keeps l w && keeps l' (apply_all l w).
Proof.
  induction l as [|snap l IH]; intros w; cbn; [reflexivity|].
  rewrite IH, andb_assoc. reflexivity.
Qed.

Lemma until_stop_keeps (l : list SnapshotTree.t) :
  forall w, keeps l w = true -> until_stop l w = l.
Proof.
  induction l as [|snap l IH]; intros w Hk; cbn in *; [reflexivity|].
  apply andb_prop in Hk. destruct Hk as [Hc Hk]. rewrite Hc, IH; auto.
Qed.

Lemma until_stop_app (l l' : list SnapshotTree.t) :
  forall w,
    until_stop (l ++ l') w
    = if keeps l w then (l ++ until_stop l' (apply_all l w))%list
      else until_stop l w.
Proof.
  induction l as [|snap l IH]; intros w; cbn; [reflexivity|].
  destruct (cont_iteration (apply snap w)); cbn; [|reflexivity].
  rewrite IH. destruct (keeps l (apply snap w)); reflexivity.
Qed.

Lemma for_each_shape (visit : SnapshotTree.t -> list SnapshotTree.t)
    (l : list SnapshotTree.t) :
  Forall (fun snap => forall w, walk_shape (_snap_iterator snap w) w (visit snap)) l ->
  forall w, walk_shape (for_each _snap_iterator l w) w (flat_map visit l).
Proof.
  intros Hl. induction Hl as [|snap l Hsnap Hl IH]; intros w.
  - exists [], []. repeat split; constructor.
  - destruct (Hsnap w) as [v1 [more1 [E1 [S1 [U1 K1]]]]].
    destruct (IH (apply_all v1 w)) as [v2 [more2 [E2 [S2 [U2 K2]]]]].
    rewrite for_each_cons, E1, bind_Ok, E2. cbn [fst snd flat_map].
    destruct (keeps (visit snap) w) eqn:Hk.
    + specialize (K1 eq_refl). subst more1. rewrite app_nil_r in U1.
      rewrite until_stop_keeps in U1 by exact Hk. subst v1.
      exists (visit snap ++ v2)%list, more2.
      rewrite apply_all_app, map_app, until_stop_app, keeps_app, Hk.
      split; [reflexivity|]. split; [apply subseq_app; assumption|].
      split.
      * rewrite U2 at 1. rewrite app_assoc. reflexivity.
      * cbn [andb]. exact K2.
    + exists (v1 ++ v2)%list, (more1 ++ v2)%list.
      rewrite apply_all_app, map_app, until_stop_app, keeps_app, Hk.
      split; [reflexivity|]. split; [apply subseq_app; assumption|].
      split; [|discriminate].
      rewrite U1 at 1. rewrite app_assoc. reflexivity.
Qed.

Lemma _snap_iterator_shape (snap : SnapshotTree.t) :
  forall w, walk_shape (_snap_iterator snap w) w (preorder snap).
Proof.
  induction snap as [id name createTime snapshot children IH]
    using SnapshotTree_nested_ind.
  intros w. rewrite _snap_iterator_eq.
  set (snap := SnapshotTree.Build id name createTime snapshot children).
  cbn [SnapshotTree.childSnapshotList snap].
  change (preorder snap) with (snap :: flat_map preorder children).
  unfold walk_shape. cbn [until_stop keeps].
  destruct (cont_iteration (apply snap w)) eqn:Hc; cbn [negb andb].
  - destruct (for_each_shape preorder children IH (apply snap w))
      as [v [more [E [Hsub [U K]]]]].
    rewrite E. cbn [fst snd].
    exists (snap :: v), more. split; [reflexivity|].
    split; [constructor; exact Hsub|].
    split; [|exact K].
    cbn [app]. rewrite U at 1. reflexivity.
  - exists [snap], []. split; [reflexivity|].
    split; [constructor; apply subseq_nil_l|].
    split; [reflexivity | discriminate].
Qed.

Lemma snap_iterator_shape (vm : VirtualMachine.t) (w : W) :
  walk_shape (snap_iterator vm w) w (preorder_forest (roots vm)).
Proof.
  unfold snap_iterator, roots.
  destruct (VirtualMachine.snapshot vm) as [snapshot|].
  - apply for_each_shape. apply Forall_forall. intros snap _.
    apply _snap_iterator_shape.
  - exists [], []. repeat split; constructor.
Qed.
End WalkShape.

(** *** Workers that search *)

Section Search.
Context {W : Type} `{SnapWorker W}.

(** [looks_for w snap] tells whether [w] is looking for [snap]; [apply]
    leaves the worker alone on any other snapshot, and never changes what
    the worker looks for. *)
Variable looks_for : W -> SnapshotTree.t -> bool.
Hypothesis apply_other :
  forall snap w, looks_for w snap = false -> apply snap w = w.
Hypothesis apply_looks_for :
  forall snap w x, looks_for (apply snap w) x = looks_for w x.

Lemma no_match_keeps (l : list SnapshotTree.t) (w : W) :
  cont_iteration w = true -> filter (looks_for w) l = [] -> keeps l w = true.
Proof.
  intros Hc. induction l as [|snap l IH]; cbn; [reflexivity|].
  destruct (looks_for w snap) eqn:E; [discriminate|].
  intros Hl. rewrite (apply_other _ _ E), Hc. apply IH. exact Hl.
Qed.

(** When the worker looks for some snapshot of [l], one it looks for is
    among those up to the first stop. *)
Lemma until_stop_finds (l : list SnapshotTree.t) (w : W) :
  cont_iteration w = true ->
  filter (looks_for w) l <> [] ->
  filter (looks_for w) (until_stop l w) <> [].
Proof.
  intros Hc. induction l as [|snap l IH]; cbn; [auto|].
  destruct (looks_for w snap) eqn:E; [discriminate|].
  intros Hl. rewrite (apply_other _ _ E), Hc. apply IH. exact Hl.
Qed.

(** What the worker looks for does not change along a walk. *)
Lemma looks_for_apply_all (l : list SnapshotTree.t) :
  forall w x, looks_for (apply_all l w) x = looks_for w x.
Proof.
  induction l as [|snap l IH]; intros w x; cbn; [reflexivity|].
  change (fold_left _ l ?y) with (apply_all l y).
  rewrite IH. apply apply_looks_for.
Qed.
End Search.

(** *** The finders *)

Lemma SnapFinder_apply_other (snap : SnapshotTree.t) (w : SnapFinder) :
  sf_matches w snap = false -> apply snap w = w.
Proof.
  unfold sf_matches. cbn [apply SnapWorker_SnapFinder]. unfold SnapFinder_apply.
  destruct (sf_identifier_type w =? BY_NAME)%Z; intros E; rewrite E; reflexivity.
Qed.

Lemma SnapFinder_apply_matches (snap : SnapshotTree.t) (w : SnapFinder)
    (x : SnapshotTree.t) :
  sf_matches (apply snap w) x = sf_matches w x.
Proof.
  unfold sf_matches. cbn [apply SnapWorker_SnapFinder]. unfold SnapFinder_apply.
  destruct (sf_identifier_type w =? BY_NAME)%Z eqn:T.
  - destruct (name_eq _ _); cbn; rewrite ?T; reflexivity.
  - destruct (id_eq (SnapshotTree.id snap) _); cbn; rewrite ?T; reflexivity.
Qed.

(** A finder collects the snapshots it looks for among those it is applied
    to, in order. *)
Lemma sf_snaps_apply_all (l : list SnapshotTree.t) :
  forall w, sf_snaps (apply_all l w) = (sf_snaps w ++ filter (sf_matches w) l)%list.
Proof.
  induction l as [|snap l IH]; intros w.
  - cbn. rewrite app_nil_r. reflexivity.
  - cbn [apply_all fold_left filter]. change (fold_left _ l ?y) with (apply_all l y).
    rewrite IH.
    rewrite (filter_ext _ _ (SnapFinder_apply_matches snap w)).
    unfold sf_matches at 2. cbn [apply SnapWorker_SnapFinder].
    unfold SnapFinder_apply.
    destruct (sf_identifier_type w =? BY_NAME)%Z.
    + destruct (name_eq _ _); cbn [sf_snaps]; rewrite <- ?app_assoc; reflexivity.
    + destruct (id_eq _ _); cbn [sf_snaps]; rewrite <- ?app_assoc; reflexivity.
Qed.

Lemma CurrSnapFinder_apply_other (snap : SnapshotTree.t) (w : CurrSnapFinder) :
  carries (cf_snap_ref w) snap = false -> apply snap w = w.
Proof.
  unfold carries. cbn [apply SnapWorker_CurrSnapFinder].
  unfold CurrSnapFinder_apply. intros E. rewrite E. reflexivity.
Qed.

Lemma CurrSnapFinder_apply_ref (snap : SnapshotTree.t) (w : CurrSnapFinder) :
  cf_snap_ref (apply snap w) = cf_snap_ref w.
Proof.
  cbn [apply SnapWorker_CurrSnapFinder]. unfold CurrSnapFinder_apply.
  destruct (ref_eq _ _); reflexivity.
Qed.

(** The current-snapshot finder ends with the last snapshot carrying the
    reference among those it was applied to. *)
Lemma cf_curr_snap_apply_all (l : list SnapshotTree.t) :
  forall w,
    cf_curr_snap (apply_all l w)
    = match rev (filter (carries (cf_snap_ref w)) l) with
      | snap :: _ => Some snap
      | [] => cf_curr_snap w
      end.
Proof.
  induction l as [|snap l IH]; intros w; [reflexivity|].
  cbn [apply_all fold_left filter]. change (fold_left _ l ?y) with (apply_all l y).
  rewrite IH, CurrSnapFinder_apply_ref.
  destruct (carries (cf_snap_ref w) snap) eqn:E.
  - cbn [rev].
    destruct (rev (filter (carries (cf_snap_ref w)) l)) as [|last others].
    + cbn. cbn [apply SnapWorker_CurrSnapFinder]. unfold CurrSnapFinder_apply.
      unfold carries in E. rewrite E. reflexivity.
    + reflexivity.
  - rewrite (CurrSnapFinder_apply_other _ _ E). reflexivity.
Qed.

Lemma filter_none {A} (f : A -> bool) (l : list A) :
  (forall x, In x l -> f x = false) -> filter f l = [].
Proof.
  induction l as [|a l IH]; intros Hf; cbn; [reflexivity|].
  rewrite (Hf a) by (left; reflexivity). apply IH.
  intros x Hx. apply Hf. right. exact Hx.
Qed.

Lemma Ref_eqb_eq (a b : Ref) : Ref_eqb a b = true <-> a = b.
Proof.
  destruct a as [x], b as [y]. cbn. rewrite String.eqb_eq.
  split; [intros ->; reflexivity | intros E; inversion E; reflexivity].
Qed.

Lemma SnapFinder_init_cases (int : string -> option Z) (args : Args.t)
    (identifier : string) :
  Args.snap args = Some identifier ->
  (if Args.by_id args
   then SnapFinder_init int (Args.snap args) BY_ID
   else SnapFinder_init int (Args.snap args) BY_NAME)
  = if Args.by_id args
    then match int identifier with
         | Some z => ret (by_id_finder z)
         | None => raise (EctlException ("Illegal snap id - '" ++ identifier ++ "'"))
         end
    else ret (by_name_finder identifier).
Proof.
  intros ->. unfold SnapFinder_init. cbn [Z.eqb BY_ID BY_NAME Pos.eqb].
  destruct (Args.by_id args); [destruct (int identifier)|]; reflexivity.
Qed.

(** How [find_snap] runs once its finder is built: it walks, and the
    snapshots the finder looked for among the visited ones decide. *)
Lemma find_snap_run (int : string -> option Z) (vm : VirtualMachine.t)
    (args : Args.t) (identifier : string) (w0 : SnapFinder) :
  Args.snap args = Some identifier ->
  (if Args.by_id args
   then SnapFinder_init int (Args.snap args) BY_ID
   else SnapFinder_init int (Args.snap args) BY_NAME) = ret w0 ->
  sf_snaps w0 = [] ->
  exists visited more,
    subseq visited (preorder_forest (roots vm))
    /\ visited = (until_stop (preorder_forest (roots vm)) w0 ++ more)%list
    /\ (keeps (preorder_forest (roots vm)) w0 = true -> more = [])
    /\ find_snap int vm args
       = (match filter (sf_matches w0) visited with
          | [] => Raise (no_such_snapshot vm identifier)
          | [snap] => Ok snap
          | _ => Raise (multiple_snapshots vm identifier)
          end,
          map Apply visited).
Proof.
  intros Hsnap Hinit Hempty.
  destruct (snap_iterator_shape vm w0) as [visited [more [E [Hsub [U K]]]]].
  exists visited, more. repeat (split; [assumption|]).
  unfold find_snap. rewrite Hinit, bind_ret, E, bind_Ok.
  rewrite sf_snaps_apply_all, Hempty, Hsnap. cbn [app format_str].
  unfold no_such_snapshot, multiple_snapshots.
  destruct (filter (sf_matches w0) visited) as [|s1 [|s2 others]];
    cbn; rewrite app_nil_r; reflexivity.
Qed.

(** *** Properties of the walk *)

(** X2.  Whatever the worker, the snapshots the walk visits are a
    subsequence of the forest's pre-order: every visited snapshot is a node
    of the forest, visits follow the pre-order, and the walk makes no more
    visits than the forest has nodes. *)
Theorem snap_iterator_visits_within_preorder {W : Type} `{SnapWorker W}
    (vm : VirtualMachine.t) (worker : W) :
  let visited := applied (trace_of (snap_iterator vm worker)) in
  subseq visited (preorder_forest (roots vm))
  /\ (forall snap, In snap visited -> In snap (preorder_forest (roots vm)))
  /\ List.length visited <= List.length (preorder_forest (roots vm)).
Proof.
  destruct (snap_iterator_shape vm worker) as [visited [more [E [Hsub _]]]].
  rewrite E. cbn [trace_of snd]. rewrite applied_map_Apply.
  split; [exact Hsub|]. split.
  - intros snap. apply subseq_In. exact Hsub.
  - apply subseq_length. exact Hsub.
Qed.

(** X3.  Whatever the worker, the walk follows the forest's pre-order up to
    and including the first snapshot at which [apply] leaves the flag
    cleared; when the flag is set after every [apply] along the pre-order,
    the visits are the whole pre-order. *)
Theorem snap_iterator_follows_preorder_until_stop {W : Type} `{SnapWorker W}
    (vm : VirtualMachine.t) (worker : W) :
  let visited := applied (trace_of (snap_iterator vm worker)) in
  (exists more,
     visited = (until_stop (preorder_forest (roots vm)) worker ++ more)%list)
  /\ (keeps (preorder_forest (roots vm)) worker = true ->
      visited = preorder_forest (roots vm)).
Proof.
  destruct (snap_iterator_shape vm worker) as [visited [more [E [_ [U K]]]]].
  rewrite E. cbn [trace_of snd]. rewrite applied_map_Apply.
  split; [exists more; exact U|].
  intros Hk. rewrite U, (K Hk), app_nil_r. apply until_stop_keeps. exact Hk.
Qed.

(** X3, with the finder for id 9 on [[A(children: [B, C]), D]]: no node has
    that id, the flag stays set, and all four are visited. *)
Lemma snap_iterator_follows_preorder_to_D :
  applied (trace_of (snap_iterator vm_ABCD (by_id_finder 9)))
  = [node_A; node_B; node_C; node_D].
Proof.
  exact (proj2 (snap_iterator_follows_preorder_until_stop vm_ABCD (by_id_finder 9))
               eq_refl).
Defined.

(** *** Properties of [find_snap] *)

Lemma find_snap_by_name_run (int : string -> option Z) (vm : VirtualMachine.t)
    (args : Args.t) (identifier : string) :
  Args.by_id args = false ->
  Args.snap args = Some identifier ->
  find_snap int vm args
  = (match filter (fun snap => SnapshotTree.name snap =? identifier)
                  (preorder_forest (roots vm)) with
     | [] => Raise (no_such_snapshot vm identifier)
     | [snap] => Ok snap
     | _ => Raise (multiple_snapshots vm identifier)
     end,
     map Apply (preorder_forest (roots vm))).
Proof.
  intros Hmode Hsnap.
  destruct (find_snap_run int vm args identifier (by_name_finder identifier))
    as [visited [more [_ [U [K E]]]]]; auto.
  { rewrite (SnapFinder_init_cases int args identifier Hsnap), Hmode. reflexivity. }
  assert (keeps (preorder_forest (roots vm)) (by_name_finder identifier) = true) as Hk.
  { clear. generalize (preorder_forest (roots vm)). intros l.
    assert (forall w, by_name w -> keeps l w = true) as G.
    { induction l as [|snap l IH]; intros w Hw; cbn [keeps]; [reflexivity|].
      rewrite (by_name_cont _ (by_name_apply snap w Hw)).
      apply IH. apply by_name_apply. exact Hw. }
    apply G. split; reflexivity. }
  rewrite (K Hk), app_nil_r, (until_stop_keeps _ _ Hk) in U. subst visited.
  exact E.
Qed.

Lemma find_snap_by_id_run (int : string -> option Z) (vm : VirtualMachine.t)
    (args : Args.t) (identifier : string) (z : Z) :
  Args.by_id args = true ->
  Args.snap args = Some identifier ->
  int identifier = Some z ->
  exists visited more,
    subseq visited (preorder_forest (roots vm))
    /\ visited = (until_stop (preorder_forest (roots vm)) (by_id_finder z) ++ more)%list
    /\ (keeps (preorder_forest (roots vm)) (by_id_finder z) = true -> more = [])
    /\ find_snap int vm args
       = (match filter (fun snap => (SnapshotTree.id snap =? z)%Z) visited with
          | [] => Raise (no_such_snapshot vm identifier)
          | [snap] => Ok snap
          | _ => Raise (multiple_snapshots vm identifier)
          end,
          map Apply visited).
Proof.
  intros Hmode Hsnap Hint.
  apply (find_snap_run int vm args identifier (by_id_finder z)); auto.
  rewrite (SnapFinder_init_cases int args identifier Hsnap), Hmode, Hint.
  reflexivity.
Qed.

(** X4.  A snapshot [find_snap] returns is a node of the machine's forest
    and is what was asked for: by name its name is the identifier, by id its
    id is the identifier's integer value. *)
Theorem find_snap_returns_a_match (int : string -> option Z)
    (vm : VirtualMachine.t) (args : Args.t) (identifier : string)
    (snap : SnapshotTree.t) :
  Args.snap args = Some identifier ->
  outcome_of (find_snap int vm args) = Ok snap ->
  In snap (preorder_forest (roots vm))
  /\ if Args.by_id args
     then int identifier = Some (SnapshotTree.id snap)
     else SnapshotTree.name snap = identifier.
Proof.
  intros Hsnap Hok. destruct (Args.by_id args) eqn:Hmode.
  - destruct (int identifier) as [z|] eqn:Hint.
    + destruct (find_snap_by_id_run int vm args identifier z Hmode Hsnap Hint)
        as [visited [more [Hsub [_ [_ E]]]]].
      rewrite E in Hok. cbn [outcome_of fst] in Hok.
      destruct (filter _ visited) as [|s1 [|s2 others]] eqn:F; inversion Hok; subst s1.
      assert (In snap (filter (fun snap => (SnapshotTree.id snap =? z)%Z) visited))
        as Hin by (rewrite F; left; reflexivity).
      apply filter_In in Hin. destruct Hin as [Hin Hid].
      apply Z.eqb_eq in Hid. subst z.
      split; [apply (subseq_In _ _ _ Hsub Hin) | reflexivity].
    + unfold find_snap in Hok.
      rewrite (SnapFinder_init_cases int args identifier Hsnap), Hmode, Hint in Hok.
      discriminate Hok.
  - rewrite (find_snap_by_name_run int vm args identifier Hmode Hsnap) in Hok.
    cbn [outcome_of fst] in Hok.
    destruct (filter _ (preorder_forest (roots vm))) as [|s1 [|s2 others]] eqn:F;
      inversion Hok; subst s1.
    assert (In snap (filter (fun snap => SnapshotTree.name snap =? identifier)
                            (preorder_forest (roots vm))))
      as Hin by (rewrite F; left; reflexivity).
    apply filter_In in Hin. destruct Hin as [Hin Hname].
    apply String.eqb_eq in Hname. split; assumption.
Qed.

(** X4, by id 2 on [[base(children: [mid])]]. *)
Lemma find_snap_returns_mid :
  In node_mid (preorder_forest (roots vm_base_mid))
  /\ decimal "2" = Some (SnapshotTree.id node_mid).
Proof.
  exact (find_snap_returns_a_match decimal vm_base_mid
           (cli "vm1" (Some "2") true false) "2" node_mid eq_refl eq_refl).
Defined.

(** X5.  When no node of the forest has the identifier as its name (by
    name) or the identifier's integer value as its id (by id), [find_snap]
    fails with the no-such-snapshot error that names the machine and the
    identifier, after visiting the whole forest.  A machine without
    snapshots is such a forest. *)
Theorem find_snap_without_match (int : string -> option Z)
    (vm : VirtualMachine.t) (args : Args.t) (identifier : string) :
  Args.snap args = Some identifier ->
  (if Args.by_id args
   then exists z, int identifier = Some z
                  /\ forall snap, In snap (preorder_forest (roots vm)) ->
                                  SnapshotTree.id snap <> z
   else forall snap, In snap (preorder_forest (roots vm)) ->
                     SnapshotTree.name snap <> identifier) ->
  find_snap int vm args
  = (Raise (EctlException ("VM '" ++ VirtualMachine.summary_config_name vm
                           ++ "' has no such snapshot - '" ++ identifier ++ "'")),
     map Apply (preorder_forest (roots vm))).
Proof.
  intros Hsnap Hnone. destruct (Args.by_id args) eqn:Hmode.
  - destruct Hnone as [z [Hint Hnone]].
    destruct (find_snap_by_id_run int vm args identifier z Hmode Hsnap Hint)
      as [visited [more [Hsub [U [K E]]]]].
    assert (filter (sf_matches (by_id_finder z)) (preorder_forest (roots vm)) = [])
      as Hf.
    { apply filter_none. intros snap Hin. apply Z.eqb_neq. apply Hnone. exact Hin. }
    assert (keeps (preorder_forest (roots vm)) (by_id_finder z) = true) as Hk.
    { apply (no_match_keeps sf_matches SnapFinder_apply_other); [reflexivity|exact Hf]. }
    rewrite (K Hk), app_nil_r, (until_stop_keeps _ _ Hk) in U. subst visited.
    rewrite E. change (fun snap => (SnapshotTree.id snap =? z)%Z)
      with (sf_matches (by_id_finder z)). rewrite Hf. reflexivity.
  - rewrite (find_snap_by_name_run int vm args identifier Hmode Hsnap).
    rewrite filter_none; [reflexivity|].
    intros snap Hin. apply String.eqb_neq. apply Hnone. exact Hin.
Qed.

(** X5, on a machine without snapshots. *)
Lemma find_snap_on_bare_machine :
  find_snap decimal (vm_bare (host_always "success" None))
    (cli "vm1" (Some "base") false false)
  = (Raise (EctlException "VM 'vm1' has no such snapshot - 'base'"), []).
Proof.
  apply (find_snap_without_match decimal (vm_bare (host_always "success" None))
           (cli "vm1" (Some "base") false false) "base" eq_refl).
  intros snap [].
Defined.

(** X6.  By name, when exactly one node of the forest has the identifier as
    its name, [find_snap] returns that node, after visiting the whole
    forest. *)
Theorem find_snap_by_name_unique (int : string -> option Z)
    (vm : VirtualMachine.t) (args : Args.t) (identifier : string)
    (snap : SnapshotTree.t) :
  Args.by_id args = false ->
  Args.snap args = Some identifier ->
  filter (fun snap => SnapshotTree.name snap =? identifier)
         (preorder_forest (roots vm)) = [snap] ->
  find_snap int vm args = (Ok snap, map Apply (preorder_forest (roots vm))).
Proof.
  intros Hmode Hsnap Hone.
  rewrite (find_snap_by_name_run int vm args identifier Hmode Hsnap), Hone.
  reflexivity.
Qed.

(** X6, by name [base] on [[base(children: [mid])]]. *)
Lemma find_snap_by_name_unique_base :
  find_snap decimal vm_base_mid (cli "vm1" (Some "base") false false)
  = (Ok node_base, [Apply node_base; Apply node_mid]).
Proof.
  exact (find_snap_by_name_unique decimal vm_base_mid
           (cli "vm1" (Some "base") false false) "base" node_base
           eq_refl eq_refl eq_refl).
Defined.

(** X7.  By id, when the identifier is an integer and exactly one node of
    the forest has it as its id, [find_snap] returns that node, wherever it
    lies in the forest. *)
Theorem find_snap_by_id_unique (int : string -> option Z)
    (vm : VirtualMachine.t) (args : Args.t) (identifier : string) (z : Z)
    (snap : SnapshotTree.t) :
  Args.by_id args = true ->
  Args.snap args = Some identifier ->
  int identifier = Some z ->
  filter (fun snap => (SnapshotTree.id snap =? z)%Z)
         (preorder_forest (roots vm)) = [snap] ->
  outcome_of (find_snap int vm args) = Ok snap
  /\ In snap (applied (trace_of (find_snap int vm args))).
Proof.
  intros Hmode Hsnap Hint Hone.
  destruct (find_snap_by_id_run int vm args identifier z Hmode Hsnap Hint)
    as [visited [more [Hsub [U [_ E]]]]].
  assert (filter (fun snap => (SnapshotTree.id snap =? z)%Z) visited = [snap]) as Hv.
  { pose proof (subseq_filter (fun snap => (SnapshotTree.id snap =? z)%Z)
                  _ _ Hsub) as Hf.
    rewrite Hone in Hf. apply subseq_of_singleton in Hf.
    destruct Hf as [Hf|Hf]; [exfalso | exact Hf].
    assert (filter (sf_matches (by_id_finder z))
              (until_stop (preorder_forest (roots vm)) (by_id_finder z)) <> [])
      as Hfound.
    { apply (until_stop_finds sf_matches SnapFinder_apply_other); [reflexivity|].
      change (sf_matches (by_id_finder z))
        with (fun snap => (SnapshotTree.id snap =? z)%Z).
      rewrite Hone. discriminate. }
    apply Hfound. rewrite U, filter_app in Hf.
    apply app_eq_nil in Hf. exact (proj1 Hf). }
  rewrite E, Hv. cbn [outcome_of trace_of fst snd]. split; [reflexivity|].
  rewrite applied_map_Apply.
  assert (In snap (filter (fun snap => (SnapshotTree.id snap =? z)%Z) visited))
    as Hin by (rewrite Hv; left; reflexivity).
  apply filter_In in Hin. exact (proj1 Hin).
Qed.

(** X7, by id 3 on [[A(children: [B, C]), D]]. *)
Lemma find_snap_by_id_unique_C :
  outcome_of (find_snap decimal vm_ABCD (cli "vm1" (Some "3") true false))
  = Ok node_C.
Proof.
  exact (proj1 (find_snap_by_id_unique decimal vm_ABCD
                  (cli "vm1" (Some "3") true false) "3" 3 node_C
                  eq_refl eq_refl eq_refl eq_refl)).
Defined.

(** X8.  Given an identifier, [find_snap] either returns a snapshot or fails
    with an [EctlException]; it raises nothing else, and in particular never
    indexes an empty list of matches. *)
Theorem find_snap_raises_only_EctlException (int : string -> option Z)
    (vm : VirtualMachine.t) (args : Args.t) (identifier : string) :
  Args.snap args = Some identifier ->
  (exists snap, outcome_of (find_snap int vm args) = Ok snap)
  \/ (exists error, outcome_of (find_snap int vm args) = Raise (EctlException error)).
Proof.
  intros Hsnap. destruct (Args.by_id args) eqn:Hmode.
  - destruct (int identifier) as [z|] eqn:Hint.
    + destruct (find_snap_by_id_run int vm args identifier z Hmode Hsnap Hint)
        as [visited [more [_ [_ [_ E]]]]].
      rewrite E. cbn [outcome_of fst].
      destruct (filter _ visited) as [|s1 [|s2 others]];
        [right | left | right]; eexists; reflexivity.
    + right. unfold find_snap.
      rewrite (SnapFinder_init_cases int args identifier Hsnap), Hmode, Hint.
      eexists. reflexivity.
  - rewrite (find_snap_by_name_run int vm args identifier Hmode Hsnap).
    cbn [outcome_of fst].
    destruct (filter _ (preorder_forest (roots vm))) as [|s1 [|s2 others]];
      [right | left | right]; eexists; reflexivity.
Qed.

(** X8, by id [A] on [[A(children: [B, C]), D]]. *)
Lemma find_snap_raises_only_EctlException_A :
  (exists snap,
     outcome_of (find_snap decimal vm_ABCD (cli "vm1" (Some "A") true false))
     = Ok snap)
  \/ (exists error,
        outcome_of (find_snap decimal vm_ABCD (cli "vm1" (Some "A") true false))
        = Raise (EctlException error)).
Proof.
  exact (find_snap_raises_only_EctlException decimal vm_ABCD
           (cli "vm1" (Some "A") true false) "A" eq_refl).
Defined.

(** *** Properties of [get_curr_snap] *)

Lemma get_curr_snap_run (vm : VirtualMachine.t) (snapshot : SnapshotInfo.t) :
  VirtualMachine.snapshot vm = Some snapshot ->
  let w0 := CurrSnapFinder_init (SnapshotInfo.currentSnapshot snapshot) in
  exists visited more,
    subseq visited (preorder_forest (roots vm))
    /\ visited = (until_stop (preorder_forest (roots vm)) w0 ++ more)%list
    /\ (keeps (preorder_forest (roots vm)) w0 = true -> more = [])
    /\ get_curr_snap vm
       = (Ok match rev (filter (carries (SnapshotInfo.currentSnapshot snapshot))
                               visited) with
             | snap :: _ => Some snap
             | [] => None
             end,
          map Apply visited).
Proof.
  intros Hinfo w0.
  destruct (snap_iterator_shape vm w0) as [visited [more [E [Hsub [U K]]]]].
  exists visited, more. repeat (split; [assumption|]).
  unfold get_curr_snap. rewrite Hinfo, bind_ret. fold w0.
  rewrite E, bind_Ok, cf_curr_snap_apply_all. cbn. rewrite app_nil_r.
  reflexivity.
Qed.

(** X9.  When exactly one node of the forest carries the machine's current
    reference, [get_curr_snap] returns that node, root or not. *)
Theorem get_curr_snap_finds_the_current (vm : VirtualMachine.t)
    (snapshot : SnapshotInfo.t) (snap : SnapshotTree.t) :
  VirtualMachine.snapshot vm = Some snapshot ->
  filter (carries (SnapshotInfo.currentSnapshot snapshot))
         (preorder_forest (roots vm)) = [snap] ->
  outcome_of (get_curr_snap vm) = Ok (Some snap).
Proof.
  intros Hinfo Hone.
  destruct (get_curr_snap_run vm snapshot Hinfo)
    as [visited [more [Hsub [U [_ E]]]]].
  assert (filter (carries (SnapshotInfo.currentSnapshot snapshot)) visited = [snap])
    as Hv.
  { pose proof (subseq_filter (carries (SnapshotInfo.currentSnapshot snapshot))
                  _ _ Hsub) as Hf.
    rewrite Hone in Hf. apply subseq_of_singleton in Hf.
    destruct Hf as [Hf|Hf]; [exfalso | exact Hf].
    assert (filter (fun x => carries (cf_snap_ref
                       (CurrSnapFinder_init (SnapshotInfo.currentSnapshot snapshot))) x)
              (until_stop (preorder_forest (roots vm))
                 (CurrSnapFinder_init (SnapshotInfo.currentSnapshot snapshot))) <> [])
      as Hfound.
    { apply (until_stop_finds (fun w => carries (cf_snap_ref w))
               CurrSnapFinder_apply_other); [reflexivity|].
      cbn [cf_snap_ref CurrSnapFinder_init]. rewrite Hone. discriminate. }
    apply Hfound. cbn [cf_snap_ref CurrSnapFinder_init].
    rewrite U, filter_app in Hf. apply app_eq_nil in Hf. exact (proj1 Hf). }
  rewrite E, Hv. reflexivity.
Qed.

(** X9, on [[base(children: [mid])]] with [mid] current. *)
Lemma get_curr_snap_finds_mid :
  outcome_of (get_curr_snap vm_base_mid) = Ok (Some node_mid).
Proof.
  exact (get_curr_snap_finds_the_current vm_base_mid
           (SnapshotInfo.Build (Some (ManagedObject "R2")) [node_base]) node_mid
           eq_refl eq_refl).
Defined.

(** X10.  When [vm.snapshot] is present and no node of the forest carries
    the current reference -- or there is no current reference --
    [get_curr_snap] returns [None], after visiting the whole forest. *)
Theorem get_curr_snap_without_current (vm : VirtualMachine.t)
    (snapshot : SnapshotInfo.t) :
  VirtualMachine.snapshot vm = Some snapshot ->
  (forall snap, In snap (preorder_forest (roots vm)) ->
                SnapshotInfo.currentSnapshot snapshot
                <> Some (SnapshotTree.snapshot snap)) ->
  get_curr_snap vm = (Ok None, map Apply (preorder_forest (roots vm))).
Proof.
  intros Hinfo Hnone.
  destruct (get_curr_snap_run vm snapshot Hinfo)
    as [visited [more [Hsub [U [K E]]]]].
  assert (filter (carries (SnapshotInfo.currentSnapshot snapshot))
                 (preorder_forest (roots vm)) = []) as Hf.
  { apply filter_none. intros snap Hin. specialize (Hnone snap Hin).
    unfold carries, ref_eq.
    destruct (SnapshotInfo.currentSnapshot snapshot) as [current|]; [|reflexivity].
    destruct (Ref_eqb (SnapshotTree.snapshot snap) current) eqn:Eq; [|reflexivity].
    apply Ref_eqb_eq in Eq. subst current. contradiction Hnone. reflexivity. }
  assert (keeps (preorder_forest (roots vm))
            (CurrSnapFinder_init (SnapshotInfo.currentSnapshot snapshot)) = true)
    as Hk.
  { apply (no_match_keeps (fun w => carries (cf_snap_ref w))
             CurrSnapFinder_apply_other); [reflexivity | exact Hf]. }
  rewrite (K Hk), app_nil_r, (until_stop_keeps _ _ Hk) in U. subst visited.
  rewrite E, Hf. reflexivity.
Qed.

(** X10, on a forest whose current reference no node carries. *)
Lemma get_curr_snap_stale :
  get_curr_snap vm_stale_current
  = (Ok None, [Apply node_A; Apply node_B; Apply node_C; Apply node_D]).
Proof.
  apply (get_curr_snap_without_current vm_stale_current
           (SnapshotInfo.Build (Some (ManagedObject "snapshot-99"))
              [node_A; node_D]) eq_refl).
  intros snap Hin. cbn in Hin.
  destruct Hin as [<-|[<-|[<-|[<-|[]]]]]; discriminate.
Defined.

(** *** Properties of the commands *)

Lemma submitted_app (t t' : list event) :
  submitted (t ++ t') = (submitted t ++ submitted t')%list.
Proof.
  induction t as [|e t IH]; simpl; auto.
  destruct e; simpl; rewrite ?IH; reflexivity.
Qed.

Lemma find_vm_spec (si : ServiceInstance.t) (vm_name : string) :
  (exists vm, find_vm_loop (ServiceInstance.view si) vm_name = Some vm
              /\ find_vm si vm_name true = ret (Some vm))
  \/ (find_vm_loop (ServiceInstance.view si) vm_name = None
      /\ find_vm si vm_name true
         = raise (EctlException ("Unable to find VM name " ++ vm_name))).
Proof.
  unfold find_vm.
  destruct (find_vm_loop (ServiceInstance.view si) vm_name) as [vm|].
  - left. exists vm. split; reflexivity.
  - right. split; reflexivity.
Qed.

(** [find_snap] does nothing but apply its finder. *)
Lemma find_snap_trace (int : string -> option Z) (vm : VirtualMachine.t)
    (args : Args.t) :
  exists visited, trace_of (find_snap int vm args) = map Apply visited.
Proof.
  unfold find_snap.
  assert (exists r, (if Args.by_id args
                     then SnapFinder_init int (Args.snap args) BY_ID
                     else SnapFinder_init int (Args.snap args) BY_NAME) = (r, []))
    as [r ->].
  { unfold SnapFinder_init. cbn [Z.eqb BY_ID BY_NAME Pos.eqb].
    destruct (Args.by_id args); [|eexists; reflexivity].
    destruct (Args.snap args) as [s|]; [|eexists; reflexivity].
    destruct (int s); eexists; reflexivity. }
  destruct r as [w0|e]; [|exists []; reflexivity].
  destruct (snap_iterator_shape vm w0) as [visited [more [E _]]].
  exists visited. rewrite bind_Ok, E, bind_Ok. cbn [fst snd app trace_of].
  destruct (List.length _ =? 0)%nat; [cbn; rewrite app_nil_r; reflexivity|].
  destruct (1 <? List.length _)%nat; [cbn; rewrite app_nil_r; reflexivity|].
  destruct (sf_snaps _); cbn; rewrite app_nil_r; reflexivity.
Qed.

Lemma revert_target_trace (int : string -> option Z) (vm : VirtualMachine.t)
    (args : Args.t) :
  exists visited, trace_of (revert_target int vm args) = map Apply visited.
Proof.
  unfold revert_target. destruct (Args.snap args) as [identifier|].
  - destruct (find_snap_trace int vm args) as [visited E].
    exists visited. destruct (find_snap int vm args) as [[snap|e] t];
      cbn [trace_of snd] in *; [|exact E].
    rewrite bind_Ok. cbn. rewrite app_nil_r. exact E.
  - exists []. destruct (VirtualMachine.snapshot vm); reflexivity.
Qed.

(** X11.  On a machine name the host does not have, every command fails
    with the error that names the machine, and does nothing else: no task is
    submitted and no snapshot is looked at. *)
Theorem commands_on_unknown_machine (int : string -> option Z)
    (si : ServiceInstance.t) (args : Args.t) :
  find_vm_loop (ServiceInstance.view si) (Args.vm_name args) = None ->
  let unknown : M unit :=
    (Raise (EctlException ("Unable to find VM name " ++ Args.vm_name args)), []) in
  start_vm si args = unknown
  /\ stop_vm si args = unknown
  /\ reset_vm si args = unknown
  /\ snap_create si args = unknown
  /\ snap_remove int si args = unknown
  /\ snap_revert int si args = unknown.
Proof.
  intros Hnone unknown.
  unfold start_vm, stop_vm, reset_vm, snap_create, snap_remove, snap_revert,
    find_vm.
  rewrite Hnone. repeat split.
Qed.

(** X11, on an empty inventory. *)
Lemma commands_on_empty_inventory :
  snap_remove decimal (ServiceInstance.Build []) (cli "vm1" (Some "base") false false)
  = (Raise (EctlException "Unable to find VM name vm1"), []).
Proof.
  pose proof (commands_on_unknown_machine decimal (ServiceInstance.Build [])
                (cli "vm1" (Some "base") false false) eq_refl)
    as [_ [_ [_ [_ [Hremove _]]]]].
  exact Hremove.
Defined.

(** X12.  [find_vm] returns the first machine of the view that has the name:
    the machine it returns has the name and no machine before it has; when
    no machine has the name it raises the error naming it, or returns [None]
    when told not to raise. *)
Theorem find_vm_returns_the_first_of_that_name (si : ServiceInstance.t)
    (vm_name : string) (raise_on_missing : bool) :
  (exists before vm after,
     ServiceInstance.view si = (before ++ vm :: after)%list
     /\ VirtualMachine.name vm = vm_name
     /\ (forall c, In c before -> VirtualMachine.name c <> vm_name)
     /\ find_vm si vm_name raise_on_missing = (Ok (Some vm), []))
  \/ ((forall c, In c (ServiceInstance.view si) -> VirtualMachine.name c <> vm_name)
      /\ find_vm si vm_name raise_on_missing
         = if raise_on_missing
           then (Raise (EctlException ("Unable to find VM name " ++ vm_name)), [])
           else (Ok None, [])).
Proof.
  unfold find_vm. induction (ServiceInstance.view si) as [|c view IH].
  - right. split; [intros c []|]. destruct raise_on_missing; reflexivity.
  - cbn [find_vm_loop]. destruct (String.eqb_spec (VirtualMachine.name c) vm_name) as [E|E].
    + left. exists [], c, view.
      split; [reflexivity|]. split; [exact E|]. split; [intros c' []|].
      reflexivity.
    + destruct IH as [[before [vm [after [Hview [Hname [Hbefore Hfind]]]]]] | [Hnone Hfind]].
      * left. exists (c :: before), vm, after. subst view.
        split; [reflexivity|]. split; [exact Hname|]. split; [|exact Hfind].
        intros c' [<-|Hin]; [exact E | apply Hbefore; exact Hin].
      * right. split; [|exact Hfind].
        intros c' [<-|Hin]; [exact E | apply Hnone; exact Hin].
Qed.

(** X13.  [snap_remove] submits nothing unless the snapshot was resolved:
    when [find_snap] fails, so does [snap_remove], with the same error and
    no task submitted; when [find_snap] returns a snapshot, the one task
    submitted is the removal of that snapshot's reference, children
    included. *)
Theorem snap_remove_submits_only_after_resolution (int : string -> option Z)
    (si : ServiceInstance.t) (args : Args.t) (vm : VirtualMachine.t) :
  find_vm_loop (ServiceInstance.view si) (Args.vm_name args) = Some vm ->
  match find_snap int vm args with
  | (Raise e, t) =>
      snap_remove int si args = (Raise e, t) /\ submitted t = []
  | (Ok snap, t) =>
      submitted (trace_of (snap_remove int si args))
      = [RemoveSnapshot_call (SnapshotTree.snapshot snap) true]
  end.
Proof.
  intros Hvm. unfold snap_remove, find_vm. rewrite Hvm, bind_ret.
  cbn [the_vm]. rewrite bind_ret.
  destruct (find_snap_trace int vm args) as [visited Ht].
  destruct (find_snap int vm args) as [[snap|e] t]; cbn [trace_of snd] in Ht;
    subst t.
  - rewrite bind_Ok. unfold RemoveSnapshot_Task.
    rewrite (exec_task_invoke vm (RemoveSnapshot_call (SnapshotTree.snapshot snap))).
    cbn [awaited trace_of fst snd]. rewrite submitted_app, submitted_map_Apply.
    reflexivity.
  - split; [reflexivity | apply submitted_map_Apply].
Qed.

(** X13, by an ambiguous name: nothing is removed. *)
Lemma snap_remove_ambiguous_submits_nothing :
  snap_remove decimal (ServiceInstance.Build [vm_daily])
    (cli "vm1" (Some "daily") false false)
  = (Raise (EctlException
              "VM 'vm1' has multiple snapshots named 'daily', use snapshot ID"),
     [Apply (leaf 5 "daily" "snapshot-5"); Apply (leaf 7 "daily" "snapshot-7")])
  /\ submitted [Apply (leaf 5 "daily" "snapshot-5");
                Apply (leaf 7 "daily" "snapshot-7")] = [].
Proof.
  exact (snap_remove_submits_only_after_resolution decimal
           (ServiceInstance.Build [vm_daily])
           (cli "vm1" (Some "daily") false false) vm_daily eq_refl).
Defined.

(** X14.  [snap_revert] powers the machine on exactly when it was asked to
    and everything before succeeded: a power-on is among the submitted calls
    if and only if [--start] was given and the command returns normally. *)
Theorem snap_revert_powers_on_only_after_success (int : string -> option Z)
    (si : ServiceInstance.t) (args : Args.t) :
  In PowerOn_call (submitted (trace_of (snap_revert int si args)))
  <-> Args.start args = true /\ outcome_of (snap_revert int si args) = Ok tt.
Proof.
  unfold snap_revert.
  destruct (find_vm_spec si (Args.vm_name args)) as [[vm [_ ->]] | [_ ->]].
  - rewrite bind_ret. cbn [the_vm]. rewrite bind_ret.
    destruct (revert_target_trace int vm args) as [visited Ht].
    destruct (revert_target int vm args) as [[[snap|]|e] t];
      cbn [trace_of snd] in Ht; subst t.
    + rewrite bind_Ok, bind_ret. unfold RevertToSnapshot_Task.
      rewrite (exec_task_invoke vm (fun _ : unit => RevertToSnapshot_call snap)).
      unfold awaited.
      destruct (task_result (VirtualMachine.tasks vm (RevertToSnapshot_call snap))
                  "Error reverting snapshot") as [[]|e'];
        destruct (Args.start args);
        cbn; rewrite submitted_app, submitted_map_Apply; cbn;
        intuition (try discriminate; auto).
    + cbn. rewrite app_nil_r, submitted_map_Apply. cbn.
      intuition (try discriminate; auto).
    + cbn. rewrite submitted_map_Apply. cbn. intuition (try discriminate; auto).
  - cbn. intuition (try discriminate; auto).
Qed.

(** X15.  With an identifier, [snap_revert] reverts to the snapshot
    [find_snap] resolves it to: when [find_snap] fails so does the command,
    with the same error and nothing submitted; when it returns a snapshot,
    the revert is submitted on that snapshot's reference and waited for;
    the command returns normally when the task ended in ["success"], fails
    with the host's fault when it ended in ["error"], and with the
    [EctlException] of the label when the wait ended on any other state;
    the power-on follows when asked for and the revert succeeded. *)
Theorem snap_revert_with_identifier (int : string -> option Z)
    (si : ServiceInstance.t) (args : Args.t) (vm : VirtualMachine.t)
    (identifier : string) :
  find_vm_loop (ServiceInstance.view si) (Args.vm_name args) = Some vm ->
  Args.snap args = Some identifier ->
  match find_snap int vm args with
  | (Raise e, t) =>
      snap_revert int si args = (Raise e, t) /\ submitted t = []
  | (Ok snap, t) =>
      let revert := RevertToSnapshot_call (SnapshotTree.snapshot snap) in
      let state := TaskInfo.state (VirtualMachine.tasks vm revert) in
      snap_revert int si args
      = (if state =? "success" then Ok tt
         else if state =? "error" then
           match TaskInfo.error (VirtualMachine.tasks vm revert) with
           | Some msg => Raise (MethodFault msg)
           | None => Raise TypeError
           end
         else Raise (EctlException "Error reverting snapshot"),
         (t ++ Submit revert :: WaitFor revert
            :: (if (state =? "success") && Args.start args
                then [Submit PowerOn_call] else []))%list)
  end.
Proof.
  intros Hvm Hsnap. unfold snap_revert, find_vm, revert_target.
  rewrite Hvm, bind_ret. cbn [the_vm]. rewrite bind_ret, Hsnap.
  destruct (find_snap_trace int vm args) as [visited Ht].
  destruct (find_snap int vm args) as [[snap|e] t]; cbn [trace_of snd] in Ht;
    subst t.
  - rewrite !bind_Ok. cbn [ret fst snd]. rewrite bind_Ok. cbn [fst snd].
    rewrite bind_ret. unfold RevertToSnapshot_Task.
    rewrite (exec_task_invoke vm
               (fun _ : unit => RevertToSnapshot_call (SnapshotTree.snapshot snap))).
    unfold awaited, task_result.
    destruct (TaskInfo.state _ =? "success"); cbn [andb].
    + destruct (Args.start args); cbn; rewrite ?app_nil_r; reflexivity.
    + destruct (TaskInfo.state _ =? "error"); [destruct (TaskInfo.error _)|];
        cbn; rewrite ?app_nil_r; reflexivity.
  - split; [reflexivity | apply submitted_map_Apply].
Qed.

(** X15, by id 3 on [[A(children: [B, C]), D]], with [--start]. *)
Lemma snap_revert_to_C_and_start :
  snap_revert decimal (ServiceInstance.Build [vm_ABCD])
    (cli "vm1" (Some "3") true true)
  = (Ok tt,
     [Apply node_A; Apply node_B; Apply node_C; Apply node_D;
      Submit (RevertToSnapshot_call (ManagedObject "snapshot-3"));
      WaitFor (RevertToSnapshot_call (ManagedObject "snapshot-3"));
      Submit PowerOn_call]).
Proof.
  exact (snap_revert_with_identifier decimal (ServiceInstance.Build [vm_ABCD])
           (cli "vm1" (Some "3") true true) vm_ABCD "3" eq_refl eq_refl).
Defined.

(** *** Properties of [main] *)

Lemma bind_assoc {A B C} (m : M A) (f : A -> M B) (g : B -> M C) :
  bind (bind m f) g = bind m (fun a => bind (f a) g).
Proof.
  destruct m as [[a|e] t]; [|reflexivity].
  rewrite !bind_Ok. destruct (f a) as [[b|e] t']; cbn [fst snd].
  - rewrite !bind_Ok. cbn [fst snd]. rewrite app_assoc. reflexivity.
  - reflexivity.
Qed.

Lemma main_eq (w : World.t) (args : Args.t)
    (func : ServiceInstance.t -> Args.t -> M unit) :
  main w args func
  = match (si <- connect_with_config w args ;; func si args) with
    | (Ok _, t) => (Exit 0, t)
    | (Raise (EctlException e), t) => (Exit 1, (t ++ [error_banner e])%list)
    | (Raise e, t) => (Traceback e, t)
    end.
Proof.
  unfold main, connect_with_config. rewrite bind_assoc. reflexivity.
Qed.

Lemma _determine_setting_trace (arg : option string) (config : json)
    (name : string) :
  trace_of (_determine_setting arg config name) = [].
Proof.
  unfold _determine_setting. destruct arg; [reflexivity|].
  destruct config; try reflexivity. destruct (dict_get d name); reflexivity.
Qed.

Lemma esxi_connect_trace (w : World.t) (config : json) (args : Args.t) :
  submitted (trace_of (esxi_connect w config args)) = []
  /\ applied (trace_of (esxi_connect w config args)) = []
  /\ stdout (trace_of (esxi_connect w config args)) = [].
Proof.
  unfold esxi_connect.
  pose proof (_determine_setting_trace (Args.host args) config "host") as H1.
  pose proof (_determine_setting_trace (Args.user args) config "user") as H2.
  pose proof (_determine_setting_trace (Args.password args) config "password") as H3.
  destruct (_determine_setting (Args.host args) config "host") as [[host|e] t1];
    cbn [trace_of snd] in H1; subst t1; [|repeat split; reflexivity].
  destruct (_determine_setting (Args.user args) config "user") as [[user|e] t2];
    cbn [trace_of snd] in H2; subst t2; [|repeat split; reflexivity].
  destruct (_determine_setting (Args.password args) config "password")
    as [[pwd|e] t3];
    cbn [trace_of snd] in H3; subst t3; [|repeat split; reflexivity].
  rewrite !bind_Ok. cbn [fst snd app].
  destruct (is_None host), (is_None user), (is_None pwd);
    try (repeat split; reflexivity).
  unfold emit. rewrite bind_Ok.
  destruct (World.SmartConnectNoSSL w host user pwd); repeat split; reflexivity.
Qed.

(** Before the command, nothing happens but at most one connection attempt. *)
Lemma connect_with_config_trace (w : World.t) (args : Args.t) :
  submitted (trace_of (connect_with_config w args)) = []
  /\ applied (trace_of (connect_with_config w args)) = []
  /\ stdout (trace_of (connect_with_config w args)) = [].
Proof.
  unfold connect_with_config, read_config_file.
  destruct (World.files w _) as [[e|config]|].
  - repeat split; reflexivity.
  - rewrite bind_ret. apply esxi_connect_trace.
  - rewrite bind_ret. apply esxi_connect_trace.
Qed.

(** X16.  When reading the configuration or connecting fails, [main] does
    not run the command at all: whatever the command, no task is submitted
    and no snapshot is looked at; an [EctlException] is printed under the
    error banner and the exit status is 1, and any other exception ends the
    program in a traceback. *)
Theorem main_stops_before_the_command (w : World.t) (args : Args.t)
    (func : ServiceInstance.t -> Args.t -> M unit) (e : exn) (t : list event) :
  connect_with_config w args = (Raise e, t) ->
  main w args func
  = match e with
    | EctlException error => (Exit 1, (t ++ [error_banner error])%list)
    | _ => (Traceback e, t)
    end
  /\ submitted (snd (main w args func)) = []
  /\ applied (snd (main w args func)) = [].
Proof.
  intros Hfail.
  pose proof (connect_with_config_trace w args) as [Hs [Ha _]].
  rewrite main_eq, Hfail in *. cbn [trace_of snd] in Hs, Ha. cbn [bind].
  destruct e; cbn [snd]; rewrite ?submitted_app, ?applied_app, ?Hs, ?Ha;
    repeat split; reflexivity.
Qed.

(** X16, with an unparsable configuration file. *)
Lemma main_with_unparsable_config :
  main (World.Build "/root"
          (fun path => if path =? "/etc/ectl.json"
                       then Some (Unparsable "Expecting value") else None)
          (fun _ _ _ => Connected (ServiceInstance.Build [vm_ABCD])))
       (Args.Build (Some "/etc/ectl.json") None None None "vm1" None false false)
       start_vm
  = (Exit 1,
     [error_banner "Error parsing /etc/ectl.json - 'Expecting value'"]).
Proof.
  exact (proj1 (main_stops_before_the_command
                  (World.Build "/root"
                     (fun path => if path =? "/etc/ectl.json"
                                  then Some (Unparsable "Expecting value") else None)
                     (fun _ _ _ => Connected (ServiceInstance.Build [vm_ABCD])))
                  (Args.Build (Some "/etc/ectl.json") None None None "vm1" None
                     false false)
                  start_vm
                  (EctlException "Error parsing /etc/ectl.json - 'Expecting value'")
                  [] eq_refl)).
Defined.

(** X17.  [main] exits with status 0 exactly when the connection was
    established and the command returned normally. *)
Theorem main_exits_0_iff_all_succeeded (w : World.t) (args : Args.t)
    (func : ServiceInstance.t -> Args.t -> M unit) :
  fst (main w args func) = Exit 0
  <-> exists si,
        outcome_of (connect_with_config w args) = Ok si
        /\ outcome_of (func si args) = Ok tt.
Proof.
  rewrite main_eq.
  destruct (connect_with_config w args) as [[si|e] t].
  - rewrite bind_Ok. cbn [outcome_of fst snd].
    destruct (func si args) as [[[]|e] t'] eqn:Hfunc; cbn [fst snd].
    + split; [intros _; exists si; rewrite Hfunc; split; reflexivity | reflexivity].
    + split.
      * destruct e; discriminate.
      * intros [si' [Hsi Hok]]. inversion Hsi; subst si'.
        rewrite Hfunc in Hok. discriminate Hok.
  - cbn [bind outcome_of fst]. split.
    + destruct e; discriminate.
    + intros [si [Hsi _]]. discriminate Hsi.
Qed.

(** *** Properties of the listings *)

Lemma entity_nested_ind (P : entity -> Prop) :
  (forall vm_list, Forall P vm_list -> P (Folder vm_list)) ->
  (forall summary, P (Machine summary)) ->
  forall vm, P vm.
Proof.
  intros Hfolder Hmachine.
  fix IH 1.
  intros [vm_list|summary]; [|apply Hmachine].
  apply Hfolder.
  induction vm_list as [|child vm_list IHl]; constructor.
  - apply IH.
  - exact IHl.
Qed.

Lemma string_length_append (s t : string) :
  String.length (s ++ t) = String.length s + String.length t.
Proof. induction s as [|c s IH]; cbn; [reflexivity | rewrite IH; reflexivity]. Qed.

Lemma string_length_spaces (n : nat) :
  String.length (string_of_list_ascii (repeat " "%char n)) = n.
Proof. induction n as [|n IH]; cbn; [reflexivity | rewrite IH; reflexivity]. Qed.

Lemma string_prefix_append (s t : string) : prefix s (s ++ t) = true.
Proof.
  induction s as [|c s IH]; cbn.
  - destruct t; reflexivity.
  - destruct (ascii_dec c c) as [_|N]; [exact IH | contradiction].
Qed.

(** A column is padded with spaces to its width and never cut: the text is
    kept whole at the start of the column, and the column is as long as the
    width or the text, whichever is longer.  A line of the machine list is
    therefore at least 86 characters long. *)
Lemma ljust_pads_and_never_cuts (n : nat) (s a b c : string) :
  prefix s (ljust n s) = true
  /\ String.length (ljust n s) = Nat.max n (String.length s)
  /\ 86 <= String.length (_VM_PRINT_FMT a b c).
Proof.
  assert (forall n s, String.length (ljust n s) = Nat.max n (String.length s)) as L.
  { intros n' s'. unfold ljust.
    rewrite string_length_append, string_length_spaces. lia. }
  split; [apply string_prefix_append|]. split; [apply L|].
  unfold _VM_PRINT_FMT. rewrite !string_length_append, !L. lia.
Qed.

Lemma print_vm_info_Machine (summary : Summary.t) (depth : nat) :
  print_vm_info (Machine summary) depth = emit (Stdout (vm_line summary)).
Proof.
  cbn [print_vm_info]. unfold vm_line, power_column, ip_column.
  destruct (String.eqb_spec (Summary.runtime_powerState summary) "poweredOn")
    as [E|_].
  - rewrite E. cbn. destruct (Summary.guest_ipAddress summary); reflexivity.
  - destruct (String.eqb_spec (Summary.runtime_powerState summary) "poweredOff")
      as [E|_].
    + rewrite E. reflexivity.
    + reflexivity.
Qed.

(** X18.  The line of a machine shows its name, then [On] or [Off] when it
    is powered on or off and [n/a] in any other power state, then the
    guest's address when the machine is powered on and the address is
    known, and [n/a] otherwise. *)
Theorem print_vm_info_machine_line (summary : Summary.t) (depth : nat) :
  let name := Summary.config_name summary in
  let power := Summary.runtime_powerState summary in
  print_vm_info (Machine summary) depth
  = emit (Stdout
      (if power =? "poweredOn"
       then _VM_PRINT_FMT name "On"
              match Summary.guest_ipAddress summary with
              | Some ip => ip
              | None => "n/a"
              end
       else if power =? "poweredOff"
       then _VM_PRINT_FMT name "Off" "n/a"
       else _VM_PRINT_FMT name "n/a" "n/a")).
Proof.
  cbn zeta. rewrite print_vm_info_Machine.
  unfold vm_line, power_column, ip_column.
  destruct (_ =? "poweredOn"); [reflexivity|].
  destruct (_ =? "poweredOff"); reflexivity.
Qed.

Lemma for_each_tt {A} (body : A -> unit -> M unit) (tr : A -> list event)
    (l : list A) :
  Forall (fun a => body a tt = (Ok tt, tr a)) l ->
  for_each body l tt = (Ok tt, flat_map tr l).
Proof.
  intros Hl. induction Hl as [|a l Ha Hl IH]; [reflexivity|].
  rewrite for_each_cons, Ha, bind_Ok, IH. reflexivity.
Qed.

Lemma map_flat_map {A B C} (f : B -> C) (g : A -> list B) (l : list A) :
  map f (flat_map g l) = flat_map (fun a => map f (g a)) l.
Proof.
  induction l as [|a l IH]; cbn; [reflexivity|].
  rewrite map_app, IH. reflexivity.
Qed.

Lemma groups_height_child (child : entity) (vm_list : list entity) :
  In child vm_list -> S (groups_height child) <= groups_height (Folder vm_list).
Proof.
  cbn [groups_height]. induction vm_list as [|c vm_list IH]; intros Hin.
  - destruct Hin.
  - cbn [fold_right]. destruct Hin as [<-|Hin]; [lia|].
    specialize (IH Hin). lia.
Qed.

Lemma print_vm_info_all (vm : entity) :
  forall depth,
    groups_height vm + depth <= S _MAX_DEPTH ->
    print_vm_info vm depth
    = (Ok tt, map (fun summary => Stdout (vm_line summary)) (machines vm)).
Proof.
  induction vm as [vm_list IH|summary] using entity_nested_ind; intros depth Hd.
  - cbn [print_vm_info machines].
    destruct (Nat.ltb_spec _MAX_DEPTH depth) as [Hlt|_].
    { cbn [groups_height] in Hd. lia. }
    rewrite map_flat_map. apply for_each_tt.
    apply Forall_forall. intros child Hin.
    rewrite Forall_forall in IH. apply (IH child Hin).
    pose proof (groups_height_child child vm_list Hin). lia.
  - apply print_vm_info_Machine.
Qed.

(** X19.  When the groups nested in an entity stay within [_MAX_DEPTH],
    [print_vm_info] prints the line of every machine in it, left to right,
    and nothing else. *)
Theorem print_vm_info_within_MAX_DEPTH (vm : entity) (depth : nat) :
  groups_height vm + depth <= S _MAX_DEPTH ->
  print_vm_info vm depth
  = (Ok tt, map (fun summary => Stdout (vm_line summary)) (machines vm)).
Proof. apply print_vm_info_all. Qed.

(** X19, on a group holding [web] and a group holding [db]. *)
Lemma print_vm_info_group_example :
  print_vm_info group_example 1
  = (Ok tt, [Stdout (_VM_PRINT_FMT "web" "On" "10.0.0.5");
             Stdout (_VM_PRINT_FMT "db" "Off" "n/a")]).
Proof.
  apply (print_vm_info_within_MAX_DEPTH group_example 1).
  unfold _MAX_DEPTH. cbn. lia.
Defined.


(** X21.  [print_vm_list] prints the two header lines and then, for every
    data center among the children of the root folder, in order, the lines
    of the machines in its [vmFolder]; a child that is not a data center
    adds nothing.  (Groups are taken to stay within [_MAX_DEPTH].) *)
Theorem print_vm_list_lists_the_data_centers
    (rootFolder_childEntity : list root_child) :
  (forall vm_list vm,
     In (Datacenter vm_list) rootFolder_childEntity -> In vm vm_list ->
     groups_height vm <= _MAX_DEPTH) ->
  print_vm_list rootFolder_childEntity
  = (Ok tt,
     Stdout (_VM_PRINT_FMT "Name" "Power" "IP Address")
     :: Stdout (_VM_PRINT_FMT "----" "-----" "----------")
     :: map (fun summary => Stdout (vm_line summary))
            (listed_machines rootFolder_childEntity)).
Proof.
  intros Hdepth. unfold print_vm_list, emit. rewrite !bind_Ok.
  unfold listed_machines. rewrite map_flat_map.
  rewrite (for_each_tt _
             (fun child => map (fun summary => Stdout (vm_line summary))
                             match child with
                             | Datacenter vm_list => flat_map machines vm_list
                             | NotDatacenter => []
                             end)); [reflexivity|].
  apply Forall_forall. intros [vm_list|] Hin; [|reflexivity].
  rewrite map_flat_map. apply for_each_tt.
  apply Forall_forall. intros vm Hvm. apply print_vm_info_all.
  specialize (Hdepth vm_list vm Hin Hvm). lia.
Qed.

(** X21, on a root folder with a network folder and one data center. *)
Lemma print_vm_list_example :
  print_vm_list [NotDatacenter; Datacenter [group_example]]
  = (Ok tt, [Stdout (_VM_PRINT_FMT "Name" "Power" "IP Address");
             Stdout (_VM_PRINT_FMT "----" "-----" "----------");
             Stdout (_VM_PRINT_FMT "web" "On" "10.0.0.5");
             Stdout (_VM_PRINT_FMT "db" "Off" "n/a")]).
Proof.
  apply (print_vm_list_lists_the_data_centers
           [NotDatacenter; Datacenter [group_example]]).
  intros vm_list vm [Hin|[Hin|[]]] Hvm; [discriminate Hin|].
  inversion Hin; subst vm_list. destruct Hvm as [<-|[]].
  unfold _MAX_DEPTH. cbn. lia.
Defined.

Section PrinterFacts.
Variable strftime_c : Z -> string.

Lemma SnapPrinter_walk (vm : VirtualMachine.t) :
  @snap_iterator _ (SnapWorker_SnapPrinter strftime_c) vm (SnapPrinter_init vm)
  = (Ok (@apply_all _ (SnapWorker_SnapPrinter strftime_c)
           (preorder_forest (roots vm)) (SnapPrinter_init vm)),
     map Apply (preorder_forest (roots vm))).
Proof.
  apply (@snap_iterator_total _ (SnapWorker_SnapPrinter strftime_c)
           (fun w => sp_cont_iteration w = true)).
  - intros snap w Hw. exact Hw.
  - intros w Hw. exact Hw.
  - reflexivity.
Qed.

Lemma sp_stdout_apply_all (l : list SnapshotTree.t) :
  forall w,
    sp_stdout (@apply_all _ (SnapWorker_SnapPrinter strftime_c) l w)
    = (sp_stdout w ++ map (SnapPrinter_line strftime_c (sp_curr_snap w)) l)%list.
Proof.
  induction l as [|snap l IH]; intros w.
  - cbn. rewrite app_nil_r. reflexivity.
  - cbn [apply_all fold_left map].
    change (fold_left _ l ?y)
      with (@apply_all _ (SnapWorker_SnapPrinter strftime_c) l y).
    rewrite IH. cbn. rewrite <- app_assoc. reflexivity.
Qed.

Lemma stdout_app (t t' : list event) :
  stdout (t ++ t') = (stdout t ++ stdout t')%list.
Proof.
  induction t as [|e t IH]; simpl; auto.
  destruct e; simpl; rewrite ?IH; reflexivity.
Qed.

Lemma stdout_map_Apply (l : list SnapshotTree.t) : stdout (map Apply l) = [].
Proof. induction l; simpl; auto. Qed.

Lemma print_lines (lines : list string) :
  for_each (fun line (_ : unit) => emit (Stdout line)) lines tt
  = (Ok tt, map Stdout lines).
Proof.
  induction lines as [|line lines IH]; [reflexivity|].
  rewrite for_each_cons. unfold emit at 1. rewrite bind_Ok, IH. reflexivity.
Qed.

Lemma stdout_map_Stdout (lines : list string) : stdout (map Stdout lines) = lines.
Proof. induction lines; simpl; congruence. Qed.

(** X22.  For a machine with snapshots, [print_snapshots] returns normally
    and prints the two header lines and then one line per node of the
    forest, in pre-order; a node's line shows its id, its name and its
    creation time, and is marked [*] exactly when the node's reference is
    the machine's current one.  For a machine without snapshots it prints
    one line, in which the placeholder is left as it is and the machine
    name follows. *)
Theorem print_snapshots_lists_the_forest (si : ServiceInstance.t)
    (args : Args.t) (vm : VirtualMachine.t) :
  find_vm_loop (ServiceInstance.view si) (Args.vm_name args) = Some vm ->
  outcome_of (print_snapshots strftime_c si args) = Ok tt
  /\ stdout (trace_of (print_snapshots strftime_c si args))
     = match VirtualMachine.snapshot vm with
       | None => ["No snapshots found for vm '{}' " ++ Args.vm_name args]
       | Some snapshot =>
           _SNAP_PRINT_FMT "ID" "Name" "Creation Time" "Crnt"
           :: _SNAP_PRINT_FMT "--" "----" "-------------" "----"
           :: map (fun snap =>
                     _SNAP_PRINT_FMT
                       (str_int (SnapshotTree.id snap))
                       (SnapshotTree.name snap)
                       (strftime_c (SnapshotTree.createTime snap))
                       (if ref_eq (SnapshotTree.snapshot snap)
                                  (SnapshotInfo.currentSnapshot snapshot)
                        then "*" else ""))
                  (preorder_forest (roots vm))
       end.
Proof.
  intros Hvm. unfold print_snapshots, find_vm. rewrite Hvm, bind_ret.
  cbn [the_vm]. rewrite bind_ret.
  destruct (VirtualMachine.snapshot vm) as [snapshot|] eqn:Hinfo.
  - unfold emit. rewrite !bind_Ok, SnapPrinter_walk, bind_Ok, print_lines.
    cbn [outcome_of trace_of fst snd app]. split; [reflexivity|].
    cbn [stdout]. rewrite stdout_app, stdout_map_Apply, stdout_map_Stdout.
    rewrite sp_stdout_apply_all. unfold SnapPrinter_init. rewrite Hinfo.
    reflexivity.
  - split; reflexivity.
Qed.
End PrinterFacts.

(** X22, on [[base(children: [mid])]] with [mid] current. *)
Lemma print_snapshots_base_mid :
  stdout (trace_of (print_snapshots (fun _ => "Thu Jan  1 00:00:00 1970")
                      (ServiceInstance.Build [vm_base_mid])
                      (cli "vm1" None false false)))
  = [_SNAP_PRINT_FMT "ID" "Name" "Creation Time" "Crnt";
     _SNAP_PRINT_FMT "--" "----" "-------------" "----";
     _SNAP_PRINT_FMT "1" "base" "Thu Jan  1 00:00:00 1970" "";
     _SNAP_PRINT_FMT "2" "mid" "Thu Jan  1 00:00:00 1970" "*"].
Proof.
  exact (proj2 (print_snapshots_lists_the_forest
                  (fun _ => "Thu Jan  1 00:00:00 1970")
                  (ServiceInstance.Build [vm_base_mid])
                  (cli "vm1" None false false) vm_base_mid eq_refl)).
Defined.

(** *** Properties of the settings *)

Lemma dict_get_In (d : list (string * json)) (name : string) (v : json) :
  NoDup (map fst d) -> In (name, v) d -> dict_get d name = Some v.
Proof.
  induction d as [|[k x] d IH]; intros Hnodup Hin; [destruct Hin|].
  cbn [dict_get]. inversion Hnodup as [|k' l Hk Hd]; subst.
  destruct Hin as [E|Hin].
  - inversion E; subst. rewrite String.eqb_refl. reflexivity.
  - destruct (String.eqb_spec k name) as [E|_]; [|apply IH; assumption].
    subst k. exfalso. apply Hk.
    change name with (fst (name, v)). apply in_map. exact Hin.
Qed.

Lemma dict_get_not_In (d : list (string * json)) (name : string) :
  ~ In name (map fst d) -> dict_get d name = None.
Proof.
  induction d as [|[k x] d IH]; intros Hnot; [reflexivity|].
  cbn [dict_get]. destruct (String.eqb_spec k name) as [E|_].
  - exfalso. apply Hnot. left. exact E.
  - apply IH. intros Hin. apply Hnot. right. exact Hin.
Qed.

Lemma _determine_setting_merged (flag : option string)
    (d : list (string * json)) (name : string) (v : json) :
  NoDup (map fst d) -> merged flag d name v ->
  _determine_setting flag (JObject d) name = ret v.
Proof.
  intros Hnodup Hm. unfold merged in Hm. destruct flag as [given|]; cbn.
  - subst v. reflexivity.
  - destruct Hm as [Hin|[-> Hnot]].
    + rewrite (dict_get_In d name v Hnodup Hin). reflexivity.
    + rewrite (dict_get_not_In d name Hnot). reflexivity.
Qed.

Lemma _determine_setting_no_config (flag : option string) (name : string)
    (v : json) :
  merged flag [] name v -> _determine_setting flag JNull name = ret v.
Proof.
  unfold merged. destruct flag as [given|]; cbn.
  - intros ->. reflexivity.
  - intros [[]|[-> _]]. reflexivity.
Qed.

(** X23.  Reading the configuration and connecting use, for each of host,
    user and password, the flag when it is given and otherwise the value the
    configuration file's object has under that key; a missing file is read
    as an object without keys.  When one of the three is then unset (no flag
    and no key, or a null value), the missing-setting error of the first
    unset one is raised and no connection is attempted; otherwise the
    connection is attempted once, with exactly these three values. *)
Theorem connect_with_flags_then_file (w : World.t) (args : Args.t)
    (d : list (string * json)) (host user pwd : json) :
  World.files w (config_path w args) = Some (Parsed (JObject d))
  \/ (World.files w (config_path w args) = None /\ d = []) ->
  NoDup (map fst d) ->
  merged (Args.host args) d "host" host ->
  merged (Args.user args) d "user" user ->
  merged (Args.password args) d "password" pwd ->
  connect_with_config w args
  = match host, user, pwd with
    | JNull, _, _ => (Raise (EctlException "Missing host setting"), [])
    | _, JNull, _ => (Raise (EctlException "Missing user setting"), [])
    | _, _, JNull => (Raise (EctlException "Missing password setting"), [])
    | _, _, _ =>
        (match World.SmartConnectNoSSL w host user pwd with
         | Connected si => Ok si
         | InvalidLogin e =>
             Raise (EctlException ("Invalid login details - '" ++ e ++ "'"))
         | ConnectFailure e =>
             Raise (EctlException
                      ("Error connecting to ESXi server - '" ++ e ++ "'"))
         end,
         [Connect host user pwd])
    end.
Proof.
  intros Hfile Hnodup Hhost Huser Hpwd.
  assert (exists config,
             read_config_file w args = ret config
             /\ _determine_setting (Args.host args) config "host" = ret host
             /\ _determine_setting (Args.user args) config "user" = ret user
             /\ _determine_setting (Args.password args) config "password" = ret pwd)
    as [config [Hread [H1 [H2 H3]]]].
  { unfold read_config_file. fold (config_path w args).
    destruct Hfile as [Hfile|[Hfile ->]]; rewrite Hfile.
    - exists (JObject d). split; [reflexivity|].
      repeat split; apply _determine_setting_merged; assumption.
    - exists JNull. split; [reflexivity|].
      repeat split; apply _determine_setting_no_config; assumption. }
  unfold connect_with_config. rewrite Hread, bind_ret.
  unfold esxi_connect. rewrite H1, H2, H3, !bind_ret.
  assert (forall A (m : M A),
             (emit (Connect host user pwd) ;;; m)
             = (fst m, Connect host user pwd :: snd m)) as Hemit.
  { intros A m. unfold emit. rewrite bind_Ok. reflexivity. }
  destruct host, user, pwd; cbn [is_None]; try reflexivity;
    rewrite Hemit; destruct (World.SmartConnectNoSSL w _ _ _); reflexivity.
Qed.

(** X23, with a file that gives all three settings and the user flag given:
    the host and the password come from the file, the user from the flag. *)
Lemma connect_with_user_flag_and_file :
  connect_with_config
    (world_with_file "/root/.local/config/ectl.json"
       (Parsed (JObject [("host", JString "esx1"); ("user", JString "root");
                         ("password", JString "secret")]))
       (ServiceInstance.Build [vm_ABCD]))
    (Args.Build None None (Some "admin") None "vm1" None false false)
  = (Ok (ServiceInstance.Build [vm_ABCD]),
     [Connect (JString "esx1") (JString "admin") (JString "secret")]).
Proof.
  apply (connect_with_flags_then_file
           (world_with_file "/root/.local/config/ectl.json"
              (Parsed (JObject [("host", JString "esx1"); ("user", JString "root");
                                ("password", JString "secret")]))
              (ServiceInstance.Build [vm_ABCD]))
           (Args.Build None None (Some "admin") None "vm1" None false false)
           [("host", JString "esx1"); ("user", JString "root");
            ("password", JString "secret")]
           (JString "esx1") (JString "admin") (JString "secret")).
  - left. reflexivity.
  - repeat constructor; cbn; intuition discriminate.
  - left. left. reflexivity.
  - reflexivity.
  - left. right. right. left. reflexivity.
Defined.
